(** * musicapp1/app.py: the /recognize request orchestrator

    A shallow embedding of [get_song_info_from_gemini] and
    [recognize_endpoint] together with the Python built-ins they use
    ([dict.get], subscripting, truthiness, [str.strip], [str.lstrip],
    [str.rstrip], [json.loads], f-string formatting), followed by the
    properties of the handler.

    Conventions.
    - A Python [str] is a Rocq [string] holding its UTF-8 encoding, so the
      literals of the source appear verbatim.
    - Decoded JSON and the other run-time values are [pyval].
    - A [dict] is an association list with unique keys in insertion order.
    - Effects are a trace of events (diagnostic prints and the two outbound
      calls) and a raised exception or a returned value.
    - A request is the list of the parts of its form; evaluating
      [request.files] and reading an uploaded file can raise, and the
      handler does so before its [try] block. *)

From Stdlib Require Import String Ascii List ZArith Bool Lia DecimalString.
Import ListNotations.

Local Set Warnings "-register-all".
Local Open Scope list_scope.
Local Open Scope string_scope.

(** ** Python run-time values *)

Module Py.

(** The double quote, the backslash and the line feed as strings. *)
Definition dq : string := String "034"%char EmptyString.
Definition backslash : string := String "092"%char EmptyString.
Definition nl : string := String "010"%char EmptyString.

Definition string_of_bytes (l : list nat) : string :=
  string_of_list_ascii (map ascii_of_nat l).

(** A Python [float] obtained from a decimal literal is the binary64 value
    nearest to [mantissa * 10 ^ exp10] (with the sign kept for [-0.0]);
    the JSON decoder also produces NaN and the infinities. *)
Inductive pyfloat : Type :=
| FNaN
| FInf (negative : bool)
| FDec (negative : bool) (mantissa : N) (exp10 : Z).

Inductive pyval : Type :=
| PNone
| PBool (b : bool)
| PInt (z : Z)
| PFloat (f : pyfloat)
| PStr (s : string)
| PList (l : list pyval)
| PDict (d : list (string * pyval)).

(** [float(lexeme) == 0.0]: the literal rounds to zero exactly when its
    magnitude is at most half the least subnormal, [2 ^ -1075]. *)
Definition float_is_zero (f : pyfloat) : bool :=
  match f with
  | FNaN | FInf _ => false
  | FDec _ m e =>
      if (m =? 0)%N then true
      else if (0 <=? e)%Z then false
      else (Z.of_N m * 2 ^ 1075 <=? 10 ^ (- e))%Z
  end.

(** [bool(v)], the test behind [if v:] and [not v]. *)
Definition truthy (v : pyval) : bool :=
  match v with
  | PNone => false
  | PBool b => b
  | PInt z => negb (z =? 0)%Z
  | PFloat f => negb (float_is_zero f)
  | PStr s => negb (String.eqb s EmptyString)
  | PList l => match l with [] => false | _ => true end
  | PDict d => match d with [] => false | _ => true end
  end.

(** [type(v).__name__], as it appears in interpreter messages. *)
Definition type_name (v : pyval) : string :=
  match v with
  | PNone => "NoneType"
  | PBool _ => "bool"
  | PInt _ => "int"
  | PFloat _ => "float"
  | PStr _ => "str"
  | PList _ => "list"
  | PDict _ => "dict"
  end.

(** [v == s] for a string literal [s]: only an equal [str] compares equal. *)
Definition eq_str (v : pyval) (s : string) : bool :=
  match v with
  | PStr t => String.eqb t s
  | _ => false
  end.

(** *** Dictionaries *)

Definition pydict : Type := list (string * pyval).

Fixpoint dict_lookup (d : pydict) (k : string) : option pyval :=
  match d with
  | [] => None
  | (k', v) :: d' => if String.eqb k' k then Some v else dict_lookup d' k
  end.

Definition dict_has (d : pydict) (k : string) : bool :=
  match dict_lookup d k with Some _ => true | None => false end.

(** [d.get(k, default)] on a dict. *)
Definition dict_get (d : pydict) (k : string) (default : pyval) : pyval :=
  match dict_lookup d k with Some v => v | None => default end.

(** [d[k] = v]: overwrite in place, or append a new key at the end. *)
Fixpoint dict_set (d : pydict) (k : string) (v : pyval) : pydict :=
  match d with
  | [] => [(k, v)]
  | (k', v') :: d' =>
      if String.eqb k' k then (k', v) :: d' else (k', v') :: dict_set d' k v
  end.

(** [dict(pairs)]: later pairs overwrite earlier ones. *)
Definition dict_of_pairs (pairs : list (string * pyval)) : pydict :=
  fold_left (fun d kv => dict_set d (fst kv) (snd kv)) pairs [].

(** *** Strings *)

Fixpoint rev_string_onto (s acc : string) : string :=
  match s with
  | EmptyString => acc
  | String c s' => rev_string_onto s' (String c acc)
  end.

Definition rev_string (s : string) : string := rev_string_onto s EmptyString.

(** [Some rest] when [s = p ++ rest]. *)
Fixpoint drop_prefix (p s : string) : option string :=
  match p, s with
  | EmptyString, _ => Some s
  | String a p', String b s' =>
      if Ascii.eqb a b then drop_prefix p' s' else None
  | String _ _, EmptyString => None
  end.

Fixpoint drop_any_prefix (pats : list string) (s : string) : option string :=
  match pats with
  | [] => None
  | p :: pats' =>
      match drop_prefix p s with
      | Some rest => Some rest
      | None => drop_any_prefix pats' s
      end
  end.

(** Remove leading occurrences of the (non-empty) patterns until none
    matches; [fuel] bounds the number of removals. *)
Fixpoint lstrip_pats (fuel : nat) (pats : list string) (s : string) : string :=
  match fuel with
  | O => s
  | S fuel' =>
      match drop_any_prefix pats s with
      | Some rest => lstrip_pats fuel' pats rest
      | None => s
      end
  end.

Definition lstrip_set (pats : list string) (s : string) : string :=
  lstrip_pats (String.length s) pats s.

Definition rstrip_set (pats : list string) (s : string) : string :=
  rev_string (lstrip_set (map rev_string pats) (rev_string s)).

(** The code points for which [str.isspace] holds, in UTF-8:
    U+0009..U+000D, U+001C..U+0020, U+0085, U+00A0, U+1680,
    U+2000..U+200A, U+2028, U+2029, U+202F, U+205F, U+3000. *)
Definition whitespace : list string :=
  map string_of_bytes
    [ [9]; [10]; [11]; [12]; [13]; [28]; [29]; [30]; [31]; [32];
      [194; 133]; [194; 160]; [225; 154; 128];
      [226; 128; 128]; [226; 128; 129]; [226; 128; 130]; [226; 128; 131];
      [226; 128; 132]; [226; 128; 133]; [226; 128; 134]; [226; 128; 135];
      [226; 128; 136]; [226; 128; 137]; [226; 128; 138];
      [226; 128; 168]; [226; 128; 169]; [226; 128; 175];
      [226; 129; 159]; [227; 128; 128] ].

(** The characters of an ASCII argument of [lstrip] / [rstrip]. *)
Fixpoint chars_of (s : string) : list string :=
  match s with
  | EmptyString => []
  | String c s' => String c EmptyString :: chars_of s'
  end.

(** [s.strip()] *)
Definition strip (s : string) : string :=
  rstrip_set whitespace (lstrip_set whitespace s).

(** [s.lstrip(chars)] and [s.rstrip(chars)] for ASCII [chars]. *)
Definition lstrip (s chars : string) : string := lstrip_set (chars_of chars) s.
Definition rstrip (s chars : string) : string := rstrip_set (chars_of chars) s.

(** [str(z)] for an [int]. *)
Definition str_of_int (z : Z) : string := NilZero.string_of_int (Z.to_int z).

(** *** Exceptions

    The classes the handler can meet.  [exn_str] is [str(e)]; for the
    exceptions raised by the interpreter the wording is CPython's and no
    property below depends on it. *)
Inductive pyexn : Type :=
| HTTPError (status_code : Z) (text : string)
| APIError (text : string)
| JSONDecodeError (text : string)
| AttributeError (text : string)
| TypeError (text : string)
| KeyError (key : string)
| UnboundLocalError (name : string)
| OtherException (text : string).

Definition exn_str (e : pyexn) : string :=
  match e with
  | HTTPError _ text => text
  | APIError text => text
  | JSONDecodeError text => text
  | AttributeError text => text
  | TypeError text => text
  | KeyError key => "'" ++ key ++ "'"
  | UnboundLocalError name =>
      "cannot access local variable '" ++ name
      ++ "' where it is not associated with a value"
  | OtherException text => text
  end.

Definition is_HTTPError (e : pyexn) : bool :=
  match e with HTTPError _ _ => true | _ => false end.

Definition is_APIError (e : pyexn) : bool :=
  match e with APIError _ => true | _ => false end.

Definition is_JSONDecodeError (e : pyexn) : bool :=
  match e with JSONDecodeError _ => true | _ => false end.

Definition no_attribute (v : pyval) (attr : string) : pyexn :=
  AttributeError ("'" ++ type_name v ++ "' object has no attribute '" ++ attr ++ "'").

Definition bad_subscript (v : pyval) : pyexn :=
  match v with
  | PStr _ => TypeError "string indices must be integers, not 'str'"
  | PList _ => TypeError "list indices must be integers or slices, not str"
  | _ => TypeError ("'" ++ type_name v ++ "' object is not subscriptable")
  end.

End Py.

(** ** The JSON decoder

    [json.loads] on a [str], after CPython's [json.decoder] and
    [json.scanner] with their default settings ([strict=True], no hooks).
    The interpreter's resource limits are outside the model: on a text
    that holds an integer literal of more than 4300 digits, or containers
    nested beyond the recursion limit, [json.loads] raises [ValueError] or
    [RecursionError] where [loads] gives a result.  [None] stands for
    [JSONDecodeError]. *)

Module Json.
Import Py.

Definition is_ws (c : ascii) : bool :=
  Ascii.eqb c " " || Ascii.eqb c "009" || Ascii.eqb c "010" || Ascii.eqb c "013".

Fixpoint skip_ws (s : string) : string :=
  match s with
  | String c r => if is_ws c then skip_ws r else s
  | EmptyString => s
  end.

Definition digit_val (c : ascii) : option N :=
  let n := N_of_ascii c in
  if ((48 <=? n) && (n <=? 57))%N then Some (n - 48)%N else None.

Definition hex_val (c : ascii) : option N :=
  let n := N_of_ascii c in
  if ((48 <=? n) && (n <=? 57))%N then Some (n - 48)%N
  else if ((65 <=? n) && (n <=? 70))%N then Some (n - 55)%N
  else if ((97 <=? n) && (n <=? 102))%N then Some (n - 87)%N
  else None.

(** The longest run of decimal digits at the head of [s]. *)
Fixpoint span_digits (s : string) : list N * string :=
  match s with
  | String c r =>
      match digit_val c with
      | Some d => let (ds, rest) := span_digits r in (d :: ds, rest)
      | None => ([], s)
      end
  | EmptyString => ([], s)
  end.

Definition N_of_digits (ds : list N) : N :=
  fold_left (fun acc d => (acc * 10 + d)%N) ds 0%N.

(** The integer part of [NUMBER_RE], an optional minus sign followed by
    a single zero or by a non-zero digit and further digits: sign, digits
    and the rest. *)
Definition match_integer (s : string) : option (bool * list N * string) :=
  let (neg, s1) :=
    match s with
    | String "-" r => (true, r)
    | _ => (false, s)
    end in
  match s1 with
  | String c r =>
      match digit_val c with
      | None => None
      | Some 0%N => Some (neg, [0%N], r)
      | Some d => let (ds, rest) := span_digits r in Some (neg, d :: ds, rest)
      end
  | EmptyString => None
  end.

(** The optional fraction of [NUMBER_RE]: a dot and at least one digit. *)
Definition match_frac (s : string) : option (list N) * string :=
  match s with
  | String "." r =>
      match span_digits r with
      | ([], _) => (None, s)
      | (fs, rest) => (Some fs, rest)
      end
  | _ => (None, s)
  end.

(** The optional exponent of [NUMBER_RE]: e or E, an optional sign and
    at least one digit. *)
Definition match_exp (s : string) : option Z * string :=
  let after_e :=
    match s with
    | String "e" r => Some r
    | String "E" r => Some r
    | _ => None
    end in
  match after_e with
  | None => (None, s)
  | Some r =>
      let (neg, r1) :=
        match r with
        | String "-" r' => (true, r')
        | String "+" r' => (false, r')
        | _ => (false, r)
        end in
      match span_digits r1 with
      | ([], _) => (None, s)
      | (es, rest) =>
          let e := Z.of_N (N_of_digits es) in
          (Some (if neg then (- e)%Z else e), rest)
      end
  end.

(** [NUMBER_RE.match] followed by [int(...)] or [float(...)]. *)
Definition match_number (s : string) : option (pyval * string) :=
  match match_integer s with
  | None => None
  | Some (neg, ds, s1) =>
      let (frac, s2) := match_frac s1 in
      let (exp, s3) := match_exp s2 in
      match frac, exp with
      | None, None =>
          let z := Z.of_N (N_of_digits ds) in
          Some (PInt (if neg then (- z)%Z else z), s3)
      | _, _ =>
          let fs := match frac with Some fs => fs | None => [] end in
          let e := match exp with Some e => e | None => 0%Z end in
          Some (PFloat (FDec neg (N_of_digits (ds ++ fs)%list)
                          (e - Z.of_nat (List.length fs))), s3)
      end
  end.

(** UTF-8 for a code point decoded from an escape (a lone surrogate keeps
    its three-byte form). *)
Definition utf8_encode (cp : N) : string :=
  let byte (n : N) := ascii_of_N n in
  let cont (n : N) := ascii_of_N (128 + n mod 64)%N in
  if (cp <? 128)%N then String (byte cp) EmptyString
  else if (cp <? 2048)%N then
    String (byte (192 + cp / 64)%N) (String (cont cp) EmptyString)
  else if (cp <? 65536)%N then
    String (byte (224 + cp / 4096)%N)
      (String (cont (cp / 64)%N) (String (cont cp) EmptyString))
  else
    String (byte (240 + cp / 262144)%N)
      (String (cont (cp / 4096)%N)
         (String (cont (cp / 64)%N) (String (cont cp) EmptyString))).

(** [_decode_uXXXX]: four hexadecimal digits. *)
Definition decode_uXXXX (s : string) : option (N * string) :=
  match s with
  | String a (String b (String c (String d rest))) =>
      match hex_val a, hex_val b, hex_val c, hex_val d with
      | Some x, Some y, Some z, Some w =>
          Some ((((x * 16 + y) * 16 + z) * 16 + w)%N, rest)
      | _, _, _, _ => None
      end
  | _ => None
  end.

(** The [BACKSLASH] table. *)
Definition simple_escape (c : ascii) : option ascii :=
  if Ascii.eqb c "034" then Some "034"%char
  else if Ascii.eqb c "092" then Some "092"%char
  else if Ascii.eqb c "/" then Some "/"%char
  else if Ascii.eqb c "b" then Some "008"%char
  else if Ascii.eqb c "f" then Some "012"%char
  else if Ascii.eqb c "n" then Some "010"%char
  else if Ascii.eqb c "r" then Some "013"%char
  else if Ascii.eqb c "t" then Some "009"%char
  else None.

(** The code point of a [\u] escape whose [u] has just been read, joining
    a high surrogate with a following low one. *)
Definition unicode_escape (s : string) : option (N * string) :=
  match decode_uXXXX s with
  | None => None
  | Some (uni, r) =>
      if ((55296 <=? uni) && (uni <=? 56319))%N then
        match r with
        | String "092" (String "u" r') =>
            match decode_uXXXX r' with
            | None => None
            | Some (uni2, r2) =>
                if ((56320 <=? uni2) && (uni2 <=? 57343))%N
                then Some ((65536 + ((uni - 55296) * 1024 + (uni2 - 56320)))%N, r2)
                else Some (uni, r)
            end
        | _ => Some (uni, r)
        end
      else Some (uni, r)
  end.

(** [scanstring], entered after the opening quote. *)
Fixpoint scanstring (fuel : nat) (s : string) : option (string * string) :=
  match fuel with
  | O => None
  | S fuel' =>
      match s with
      | EmptyString => None
      | String c r =>
          if Ascii.eqb c "034" then Some (EmptyString, r)
          else if Ascii.eqb c "092" then
            match r with
            | EmptyString => None
            | String e r' =>
                if Ascii.eqb e "u" then
                  match unicode_escape r' with
                  | None => None
                  | Some (cp, rest) =>
                      match scanstring fuel' rest with
                      | Some (body, rest') => Some ((utf8_encode cp ++ body)%string, rest')
                      | None => None
                      end
                  end
                else
                  match simple_escape e with
                  | None => None
                  | Some ch =>
                      match scanstring fuel' r' with
                      | Some (body, rest') => Some (String ch body, rest')
                      | None => None
                      end
                  end
            end
          else if (N_of_ascii c <? 32)%N then None
          else
            match scanstring fuel' r with
            | Some (body, rest') => Some (String c body, rest')
            | None => None
            end
      end
  end.

Definition scan_string (s : string) : option (string * string) :=
  scanstring (S (String.length s)) s.

(** [scan_once], [JSONObject] and [JSONArray]. *)
Fixpoint scan_once (fuel : nat) (s : string) : option (pyval * string) :=
  match fuel with
  | O => None
  | S fuel' =>
      match s with
      | EmptyString => None
      | String c r =>
          if Ascii.eqb c "034" then
            match scan_string r with
            | Some (str, rest) => Some (PStr str, rest)
            | None => None
            end
          else if Ascii.eqb c "{" then
            match skip_ws r with
            | String "}" rest => Some (PDict [], rest)
            | String "034" rest => object_members fuel' [] rest
            | _ => None
            end
          else if Ascii.eqb c "[" then
            match skip_ws r with
            | String "]" rest => Some (PList [], rest)
            | r1 => array_items fuel' [] r1
            end
          else
            match drop_prefix "null" s, drop_prefix "true" s, drop_prefix "false" s with
            | Some rest, _, _ => Some (PNone, rest)
            | _, Some rest, _ => Some (PBool true, rest)
            | _, _, Some rest => Some (PBool false, rest)
            | None, None, None =>
                match match_number s with
                | Some res => Some res
                | None =>
                    match drop_prefix "NaN" s, drop_prefix "Infinity" s,
                          drop_prefix "-Infinity" s with
                    | Some rest, _, _ => Some (PFloat FNaN, rest)
                    | _, Some rest, _ => Some (PFloat (FInf false), rest)
                    | _, _, Some rest => Some (PFloat (FInf true), rest)
                    | None, None, None => None
                    end
                end
            end
      end
  end

(** The loop of [JSONObject], entered after the opening quote of a key. *)
with object_members (fuel : nat) (pairs : list (string * pyval)) (s : string)
  : option (pyval * string) :=
  match fuel with
  | O => None
  | S fuel' =>
      match scan_string s with
      | None => None
      | Some (key, r) =>
          match skip_ws r with
          | String ":" r1 =>
              match scan_once fuel' (skip_ws r1) with
              | None => None
              | Some (value, r2) =>
                  let pairs' := (pairs ++ [(key, value)])%list in
                  match skip_ws r2 with
                  | String "}" rest => Some (PDict (dict_of_pairs pairs'), rest)
                  | String "," r3 =>
                      match skip_ws r3 with
                      | String "034" r4 => object_members fuel' pairs' r4
                      | _ => None
                      end
                  | _ => None
                  end
              end
          | _ => None
          end
      end
  end

(** The loop of [JSONArray], entered at the first character of an item. *)
with array_items (fuel : nat) (values : list pyval) (s : string)
  : option (pyval * string) :=
  match fuel with
  | O => None
  | S fuel' =>
      match scan_once fuel' s with
      | None => None
      | Some (value, r) =>
          let values' := (values ++ [value])%list in
          match skip_ws r with
          | String "]" rest => Some (PList values', rest)
          | String "," r1 => array_items fuel' values' (skip_ws r1)
          | _ => None
          end
      end
  end.

(** [JSONDecoder.decode]: one value between optional white space, and
    nothing after it. *)
Definition loads (s : string) : option pyval :=
  match scan_once (2 * String.length s + 2) (skip_ws s) with
  | Some (obj, rest) =>
      match skip_ws rest with
      | EmptyString => Some obj
      | _ => None
      end
  | None => None
  end.

End Json.


(** ** Effects: a trace of events, and a value or a raised exception *)

Import Py.

(** One uploaded file of the multipart form:
    [filename], the bytes given by [read()], and [mimetype]. *)
Record upload : Type := MkUpload {
  filename : string;
  content : string;
  mimetype : string
}.

Inductive event : Type :=
| Print (line : string)
| AuddPost (url : string) (data : list (string * string))
    (file : string * string * string)
| GeminiGenerate (model contents : string).

Inductive result (A : Type) : Type :=
| Ok (a : A)
| Raise (e : pyexn).

Arguments Ok {A} a.
Arguments Raise {A} e.

Definition M (A : Type) : Type := list event * result A.

Definition ret {A : Type} (a : A) : M A := ([], Ok a).

Definition raise {A : Type} (e : pyexn) : M A := ([], Raise e).

Definition emit (ev : event) : M unit := ([ev], Ok tt).

Definition bind {A B : Type} (m : M A) (k : A -> M B) : M B :=
  match m with
  | (t, Ok a) => let (t', r) := k a in ((t ++ t')%list, r)
  | (t, Raise e) => (t, Raise e)
  end.

(** [try: m  except ... as e: h e] where [h] covers every exception
    (a handler re-raises what it does not catch). *)
Definition try_except {A : Type} (m : M A) (h : pyexn -> M A) : M A :=
  match m with
  | (t, Ok a) => (t, Ok a)
  | (t, Raise e) => let (t', r) := h e in ((t ++ t')%list, r)
  end.

Declare Scope eff_scope.
Delimit Scope eff_scope with eff.
Notation "x <- m ;; k" := (bind m (fun x => k))
  (at level 100, m at next level, right associativity) : eff_scope.
Notation "m ;;; k" := (bind m (fun _ => k))
  (at level 100, right associativity) : eff_scope.
Local Open Scope eff_scope.

(** The outbound calls of a trace. *)
Definition is_external_call (ev : event) : bool :=
  match ev with
  | Print _ => false
  | AuddPost _ _ _ => true
  | GeminiGenerate _ _ => true
  end.

Definition external_calls (t : list event) : list event :=
  filter is_external_call t.

(** [v.get(k, default)]: a method of [dict] only. *)
Definition py_get (v : pyval) (k : string) (default : pyval) : M pyval :=
  match v with
  | PDict d => ret (dict_get d k default)
  | _ => raise (no_attribute v "get")
  end.

(** [v[k]] for a string key. *)
Definition py_getitem (v : pyval) (k : string) : M pyval :=
  match v with
  | PDict d =>
      match dict_lookup d k with
      | Some x => ret x
      | None => raise (KeyError k)
      end
  | _ => raise (bad_subscript v)
  end.

(** ** The collaborators *)

(** What [client.models.generate_content] does: raise, or return a
    response whose [text] is a string or [None]. *)
Inductive gen_outcome : Type :=
| GenRaise (e : pyexn)
| GenReply (text : option string).

(** The handle built by [genai.Client]; its method takes [model] and
    [contents]. *)
Record Client : Type := MkClient {
  generate_content : string -> string -> gen_outcome
}.

(** A [requests.Response]: [json_body] is what [json()] gives, the message
    of its decoding error or the decoded body. *)
Record Response : Type := MkResponse {
  status_code : Z;
  reason : string;
  json_body : string + pyval
}.

(** What [requests.post] does: raise a connection-level exception (of a
    class other than [HTTPError]) with the given text, or return. *)
Inductive post_outcome : Type :=
| PostRaise (text : string)
| PostReturn (response : Response).

(** [Response.raise_for_status] *)
Definition raise_for_status (url : string) (response : Response) : M unit :=
  let code := status_code response in
  if ((400 <=? code) && (code <? 500))%Z then
    raise (HTTPError code (str_of_int code ++ " Client Error: "
                           ++ reason response ++ " for url: " ++ url))
  else if ((500 <=? code) && (code <? 600))%Z then
    raise (HTTPError code (str_of_int code ++ " Server Error: "
                           ++ reason response ++ " for url: " ++ url))
  else ret tt.

(** [Response.json] *)
Definition response_json (response : Response) : M pyval :=
  match json_body response with
  | inl text => raise (JSONDecodeError text)
  | inr v => ret v
  end.

(** [jsonify(d)] of a dict of JSON values is the response body [d]. *)
Definition jsonify (d : pydict) : pyval := PDict d.

(** Lines 20-29 of the module: the start-up check of the generative-text
    key and the construction of the client handle, [None] when the
    constructor raises.  [construct] is [genai.Client]. *)
Definition init_gemini_client (GEMINI_API_KEY : option string)
    (construct : option string -> pyexn + Client) : M (option Client) :=
  (match GEMINI_API_KEY with
   | Some (String _ _) => ret tt
   | _ => emit (Print "⚠️ 錯誤：未在 .env 檔案中找到 GEMINI_API_KEY，將無法使用 AI 查詢歌詞。")
   end) ;;;
  match construct GEMINI_API_KEY with
  | inr client => ret (Some client)
  | inl e =>
      emit (Print ("⚠️ 錯誤：初始化 Gemini 客戶端失敗。" ++ exn_str e)) ;;;
      ret None
  end.

(** ** The incoming request *)

(** A file of the form as [request.files] holds it: its [filename], its
    [mimetype], and what [read()] does, raise or return the bytes. *)
Record file_storage : Type := MkStorage {
  storage_filename : string;
  storage_read : pyexn + string;
  storage_mimetype : string
}.

(** A part of the multipart form: a file, or a plain field. *)
Inductive part : Type :=
| FilePart (name : string) (file : file_storage)
| ValuePart (name value : string).

(** The request: the parts of its form in order, and the exception, if
    any, that parsing the form raises for a reason other than the number
    of its parts (a plain field beyond the memory limit, a connection that
    breaks). *)
Record request : Type := MkRequest {
  parts : list part;
  parse_error : option pyexn
}.

(** The framework's limit on the number of parts of a form, and the
    exception it raises beyond it. *)
Definition max_form_parts : nat := 1000.

Definition RequestEntityTooLarge : pyexn :=
  OtherException
    "413 Request Entity Too Large: The data value transmitted exceeds the capacity limit.".

Fixpoint file_parts (ps : list part) : list (string * file_storage) :=
  match ps with
  | [] => []
  | FilePart name file :: ps' => (name, file) :: file_parts ps'
  | ValuePart _ _ :: ps' => file_parts ps'
  end.

(** Evaluating [request.files]: the form is parsed, which raises or gives
    the file fields in order. *)
Definition request_files (req : request) : M (list (string * file_storage)) :=
  match parse_error req with
  | Some e => raise e
  | None =>
      if Nat.ltb max_form_parts (length (parts req)) then
        raise RequestEntityTooLarge
      else ret (file_parts (parts req))
  end.

(** The first file stored under [k], as [k in request.files] and
    [request.files[k]] see it. *)
Fixpoint field_lookup (fields : list (string * file_storage)) (k : string)
  : option file_storage :=
  match fields with
  | [] => None
  | (k', f) :: fields' =>
      if String.eqb k' k then Some f else field_lookup fields' k
  end.

(** [f.read()] *)
Definition read (f : file_storage) : M string :=
  match storage_read f with
  | inl e => raise e
  | inr bytes => ret bytes
  end.

(** The upload that the statements before the [try] block (lines 89 to 97)
    obtain from the field [k]: [Some] when evaluating [request.files] does
    not raise, the form has a file under [k], and reading it returns;
    [None] in every other case. *)
Definition files_lookup (files : request) (k : string) : option upload :=
  match snd (request_files files) with
  | Ok fields =>
      match field_lookup fields k with
      | Some f =>
          match storage_read f with
          | inr bytes => Some (MkUpload (storage_filename f) bytes (storage_mimetype f))
          | inl _ => None
          end
      | None => None
      end
  | Raise _ => None
  end.

(** The request whose form holds the given files and nothing else, each of
    them readable. *)
Definition form_of (files : list (string * upload)) : request :=
  MkRequest
    (map (fun kv => FilePart (fst kv)
                      (MkStorage (filename (snd kv)) (inr (content (snd kv)))
                                 (mimetype (snd kv))))
         files)
    None.

(** ** Sample inputs *)

Definition sample_repr (v : pyval) : string := "<repr>".

Definition sample_key : string := "3519b325d66d158312f4677cc81f5d2e".

Definition sample_upload : upload := MkUpload "clip.mp3" "ID3" "audio/mpeg".

Definition sample_files : request := form_of [("audio_file", sample_upload)].

(** A form of 1001 plain fields and no file, and a form whose [audio_file]
    comes after 1000 plain fields. *)
Definition crowded_form : request :=
  MkRequest (repeat (ValuePart "note" "x") 1001) None.

Definition late_upload : request :=
  MkRequest
    (repeat (ValuePart "note" "x") 1000
     ++ [FilePart "audio_file" (MkStorage "clip.mp3" (inr "ID3") "audio/mpeg")])%list
    None.

Definition sample_record : pydict :=
  [ ("title", PStr "Song"); ("artist", PStr "Band"); ("album", PStr "Album");
    ("spotify", PDict [("external_urls",
                        PDict [("spotify", PStr "https://open.spotify.com/track/1")])]);
    ("deezer", PDict [("link", PStr "https://www.deezer.com/track/1")]) ].

Definition post_returns (code : Z) (body : string + pyval)
  : string -> list (string * string) -> string * string * string -> post_outcome :=
  fun _ _ _ => PostReturn (MkResponse code "OK" body).

Definition post_raises (text : string)
  : string -> list (string * string) -> string * string * string -> post_outcome :=
  fun _ _ _ => PostRaise text.

Definition matched (r : pydict) : string + pyval :=
  inr (PDict [("status", PStr "success"); ("result", PDict r)]).

Definition client_replies (text : option string) : Client :=
  MkClient (fun _ _ => GenReply text).

Definition client_raises (e : pyexn) : Client :=
  MkClient (fun _ _ => GenRaise e).

Definition q (s : string) : string := dq ++ s ++ dq.

(** A service error as the fingerprinting service reports it, the same
    marker with an [error] entry that is not an object, and a body without
    a match. *)
Definition error_body : pyval :=
  PDict [ ("status", PStr "error");
          ("error", PDict [ ("error_code", PInt 901);
                            ("error_message", PStr "No api_token passed") ]) ].

Definition bad_error_body : pyval :=
  PDict [ ("status", PStr "error"); ("error", PStr "Invalid token") ].

Definition no_match_body : pyval :=
  PDict [ ("status", PStr "success"); ("result", PNone) ].

(** A match record whose [spotify] entry has no [external_urls]. *)
Definition broken_record : pydict :=
  [ ("title", PStr "Song"); ("artist", PStr "Band");
    ("spotify", PDict [("id", PStr "1")]) ].

(** The reply [{"lyrics":"la la"}], without [artist_info]. *)
Definition partial_reply : string :=
  "{" ++ q "lyrics" ++ ":" ++ q "la la" ++ "}".

(** The reply [```json {"lyrics":"L","artist_info":"A"} ```]. *)
Definition fenced_reply : string :=
  "```json {" ++ q "lyrics" ++ ":" ++ q "L" ++ "," ++ q "artist_info" ++ ":" ++ q "A" ++ "} ```".

(** ** The application *)

Section App.

(** [repr] of floats and containers is the interpreter's and stays
    abstract; [str] and [int] are formatted below. *)
Variable py_repr : pyval -> string.

(** The module's globals: the fingerprinting token read from the
    environment, the client handle ([None] when its construction raised)
    and the [requests] module. *)
Variable AUDDIO_API_KEY : string.
Variable gemini_client : option Client.
Variable requests_post :
  string -> list (string * string) -> string * string * string -> post_outcome.

(** [format(v)] as used by an f-string field. *)
Definition py_str (v : pyval) : string :=
  match v with
  | PStr s => s
  | PInt z => str_of_int z
  | PNone => "None"
  | PBool true => "True"
  | PBool false => "False"
  | _ => py_repr v
  end.

Definition str_of_option (o : option string) : string :=
  match o with Some s => s | None => "None" end.

(** The f-string of [get_song_info_from_gemini]. *)
Definition prompt (title artist : pyval) : string :=
  nl ++ "    請針對這首歌：" ++ nl
  ++ "    歌曲名稱: " ++ dq ++ py_str title ++ dq ++ nl
  ++ "    歌手: " ++ dq ++ py_str artist ++ dq ++ nl
  ++ "    " ++ nl
  ++ "    執行以下兩個任務：" ++ nl
  ++ "    1. **歌詞 (Lyrics)**: 提供這首歌的完整歌詞。如果無法提供完整歌詞，請提供至少兩段，並註明「部分歌詞」。" ++ nl
  ++ "    2. **歌手簡介 (Artist Info)**: 簡要介紹歌手 " ++ dq ++ py_str artist ++ dq
  ++ " 的主要風格、重要成就，長度控制在 100 字以內。" ++ nl
  ++ "    " ++ nl
  ++ "    請以一個 JSON 格式回傳結果，確保回傳內容是純 JSON，且可以被 Python 的 json.loads 函式解析。格式如下：" ++ nl
  ++ "    {" ++ nl
  ++ "      " ++ dq ++ "lyrics" ++ dq ++ ": " ++ dq ++ "這裡放歌詞內容..." ++ dq ++ "," ++ nl
  ++ "      " ++ dq ++ "artist_info" ++ dq ++ ": " ++ dq ++ "這裡放歌手簡介..." ++ dq ++ nl
  ++ "    }" ++ nl
  ++ "    ".

Definition enrichment (lyrics artist_info : string) : pyval :=
  PDict [("lyrics", PStr lyrics); ("artist_info", PStr artist_info)].

(** The three [except] clauses of [get_song_info_from_gemini], tried in
    order on a raised [e].  [import json] sits inside the [try] block after
    the model call and makes [json] a local name of the function, so the
    second clause can evaluate [json.JSONDecodeError] only when the import
    has run ([json_bound]); before that the lookup itself raises
    [UnboundLocalError], which leaves the function.  [response_text] is
    [response.text], read by the second clause's message. *)
Definition except_clauses (json_bound : bool) (response_text : option string)
    (e : pyexn) : M pyval :=
  if is_APIError e then
    emit (Print ("Gemini API 呼叫錯誤: " ++ exn_str e)) ;;;
    ret (enrichment "Gemini API 呼叫失敗。"
           ("Gemini API 呼叫失敗。錯誤：" ++ exn_str e))
  else if negb json_bound then
    raise (UnboundLocalError "json")
  else if is_JSONDecodeError e then
    emit (Print ("無法解析 Gemini 回傳的 JSON：" ++ str_of_option response_text)) ;;;
    ret (enrichment "AI 回傳格式錯誤。" "AI 回傳格式錯誤。")
  else
    emit (Print ("Gemini 查詢未知錯誤: " ++ exn_str e)) ;;;
    ret (enrichment "未知錯誤。" "未知錯誤。").

(** [response.text.strip().lstrip('```json').rstrip('```')] *)
Definition clean (text : string) : string :=
  rstrip (lstrip (strip text) "```json") "```".

(** The statements of the [try] block after the model call has returned:
    [import json], the clean-up and [json.loads].  The decoding error's
    message is never read and is left empty. *)
Definition decode_reply (text : option string) : M pyval :=
  match text with
  | None => raise (no_attribute PNone "strip")
  | Some t =>
      let cleaned_text := clean t in
      match Json.loads cleaned_text with
      | Some v => ret v
      | None => raise (JSONDecodeError EmptyString)
      end
  end.

Definition get_song_info_from_gemini (title artist : pyval) : M pyval :=
  match gemini_client with
  | None => ret (enrichment "AI 服務未啟動。" "AI 服務未啟動。")
  | Some client =>
      let prompt := prompt title artist in
      emit (GeminiGenerate "gemini-2.5-flash" prompt) ;;;
      match generate_content client "gemini-2.5-flash" prompt with
      | GenRaise e => except_clauses false None e
      | GenReply text =>
          try_except (decode_reply text) (except_clauses true text)
      end
  end.

(** The platforms of the link table: the key written to [links], the field
    of the match record, and the path to the URL below it. *)
Definition platforms : list (string * string * list string) :=
  [ ("Spotify", "spotify", ["external_urls"; "spotify"]);
    ("YouTube Music", "youtube", ["url"]);
    ("Apple Music", "apple_music", ["url"]);
    ("Deezer", "deezer", ["link"]) ].

(** [v[k1][k2]...] *)
Fixpoint py_getpath (v : pyval) (path : list string) : M pyval :=
  match path with
  | [] => ret v
  | k :: path' => x <- py_getitem v k ;; py_getpath x path'
  end.

(** One guarded assignment:
    [if r.get(field): links[name] = r[field][k1]...] *)
Definition add_link (r : pyval) (links : pydict)
    (p : string * string * list string) : M pydict :=
  let '(name, field, path) := p in
  present <- py_get r field PNone ;;
  if truthy present then
    entry <- py_getitem r field ;;
    url <- py_getpath entry path ;;
    ret (dict_set links name url)
  else ret links.

(** Lines 133-141 of [recognize_endpoint]: [links = {}] and the four
    guarded assignments in source order. *)
Definition extract_links (r : pyval) : M pydict :=
  links <- add_link r [] ("Spotify", "spotify", ["external_urls"; "spotify"]) ;;
  links <- add_link r links ("YouTube Music", "youtube", ["url"]) ;;
  links <- add_link r links ("Apple Music", "apple_music", ["url"]) ;;
  add_link r links ("Deezer", "deezer", ["link"]).

Definition response : Type := pyval * Z.

(** The part of the [try] block that runs on a match record [r]. *)
Definition on_match (r : pyval) : M response :=
  title <- py_get r "title" PNone ;;
  artist <- py_get r "artist" PNone ;;
  gemini_data <- get_song_info_from_gemini title artist ;;
  links <- extract_links r ;;
  album <- py_get r "album" PNone ;;
  lyrics <- py_get gemini_data "lyrics" (PStr "未能獲取歌詞。") ;;
  artist_info <- py_get gemini_data "artist_info" (PStr "未能獲取歌手簡介。") ;;
  ret (jsonify [ ("status", PStr "success");
                 ("title", title);
                 ("artist", artist);
                 ("album", album);
                 ("links", PDict links);
                 ("lyrics", lyrics);
                 ("artist_info", artist_info) ], 200%Z).

(** The part of the [try] block that inspects the decoded body. *)
Definition on_result (result : pyval) : M response :=
  status <- py_get result "status" PNone ;;
  if eq_str status "error" then
    error_info <- py_get result "error" (PDict []) ;;
    error_message <- py_get error_info "error_message"
                       (PStr "Audd.io 回傳了未知的錯誤訊息。") ;;
    error_code <- py_get error_info "error_code" (PStr "N/A") ;;
    ret (jsonify [ ("status", PStr "fail");
                   ("message", PStr ("服務錯誤 (" ++ py_str error_code ++ ")："
                                     ++ py_str error_message)) ], 200%Z)
  else
    match_record <- py_get result "result" PNone ;;
    if negb (truthy match_record) then
      ret (jsonify [ ("status", PStr "fail");
                     ("message", PStr "無法辨識：成功連線至 Audd.io，但無法在資料庫中找到匹配的音樂。") ],
           200%Z)
    else
      r <- py_getitem result "result" ;;
      on_match r.

(** The [try] block of [recognize_endpoint]. *)
Definition recognize_try (url : string) (data : list (string * string))
    (files : string * string * string) : M response :=
  emit (AuddPost url data files) ;;;
  match requests_post url data files with
  | PostRaise text => raise (OtherException text)
  | PostReturn response =>
      raise_for_status url response ;;;
      result <- response_json response ;;
      on_result result
  end.

(** The two [except] clauses of [recognize_endpoint]. *)
Definition recognize_except (e : pyexn) : M response :=
  match e with
  | HTTPError code _ =>
      ret (jsonify [ ("status", PStr "error");
                     ("message", PStr ("HTTP 連線錯誤：" ++ str_of_int code)) ],
           500%Z)
  | _ =>
      ret (jsonify [ ("status", PStr "error");
                     ("message", PStr ("後端未知錯誤：" ++ exn_str e)) ],
           500%Z)
  end.

Definition audd_url : string := "https://api.audd.io/".

Definition audd_data : list (string * string) :=
  [ ("api_token", AUDDIO_API_KEY);
    ("return", "spotify,apple_music,youtube,deezer") ].

Definition audd_files (audio_file : upload) : string * string * string :=
  (filename audio_file, content audio_file, mimetype audio_file).

(** The handler.  The statements before the [try] block are not covered
    by its [except] clauses: what they raise leaves the handler. *)
Definition recognize_endpoint (files : request) : M response :=
  fields <- request_files files ;;
  match field_lookup fields "audio_file" with
  | None =>
      ret (jsonify [ ("status", PStr "error");
                     ("message", PStr "未找到音訊檔案。") ], 400%Z)
  | Some audio_file =>
      bytes <- read audio_file ;;
      try_except
        (recognize_try audd_url audd_data
           (storage_filename audio_file, bytes, storage_mimetype audio_file))
        recognize_except
  end.

(** ** Vocabulary of the properties *)

(** A statement before the [try] block raises [e]: the evaluation of
    [request.files], or the reading of the file stored under
    [audio_file]. *)
Definition raised_before_try (files : request) (e : pyexn) : Prop :=
  request_files files = ([], Raise e)
  \/ exists fields audio_file,
       request_files files = ([], Ok fields) /\
       field_lookup fields "audio_file" = Some audio_file /\
       storage_read audio_file = inl e.

(** The upload [audio_file] is obtained from the request (no statement
    before the [try] block raises), the POST returns without an HTTP
    error status, the body decodes to an object without the error marker,
    and its [result] entry is the non-empty object [r]: the handler
    reaches [r = result["result"]]. *)
Definition fingerprint_match (files : request) (audio_file : upload)
    (r : pydict) : Prop :=
  exists resp result,
    files_lookup files "audio_file" = Some audio_file /\
    requests_post audd_url audd_data (audd_files audio_file) = PostReturn resp /\
    ((status_code resp < 400)%Z \/ (600 <= status_code resp)%Z) /\
    json_body resp = inr (PDict result) /\
    eq_str (dict_get result "status" PNone) "error" = false /\
    dict_lookup result "result" = Some (PDict r) /\
    r <> [].

(** The body has been decoded: the upload [audio_file] is obtained from
    the request, the POST returns without an HTTP error status and
    [json()] gives [body]. *)
Definition decoded_body (files : request) (audio_file : upload)
    (body : pyval) : Prop :=
  exists resp,
    files_lookup files "audio_file" = Some audio_file /\
    requests_post audd_url audd_data (audd_files audio_file) = PostReturn resp /\
    ((status_code resp < 400)%Z \/ (600 <= status_code resp)%Z) /\
    json_body resp = inr body.

(** A platform field counts as present when the guard [if r.get(field)]
    lets it through. *)
Definition field_present (r : pydict) (field : string) : bool :=
  truthy (dict_get r field PNone).

(** The URL below a present platform entry can be read. *)
Definition link_ok (r : pydict) (p : string * string * list string) : bool :=
  let '(_, field, path) := p in
  if field_present r field then
    match snd (py_getpath (dict_get r field PNone) path) with
    | Ok _ => true
    | Raise _ => false
    end
  else true.

Definition links_well_formed (r : pydict) : bool :=
  forallb (link_ok r) platforms.

(** Some platform writes the key [k] and its field is present. *)
Definition link_present (r : pydict) (k : string) : bool :=
  existsb (fun p => String.eqb (fst (fst p)) k && field_present r (snd (fst p)))
    platforms.

Definition platform_names : list string := map (fun p => fst (fst p)) platforms.

(** [sub] occurs in [s]. *)
Definition contains (s sub : string) : Prop :=
  exists before after : string, s = (before ++ sub ++ after)%string.

(** The body returned with [status=success]. *)
Definition success_payload (title artist album : pyval) (links : pydict)
    (lyrics artist_info : pyval) : pyval :=
  PDict [ ("status", PStr "success");
          ("title", title);
          ("artist", artist);
          ("album", album);
          ("links", PDict links);
          ("lyrics", lyrics);
          ("artist_info", artist_info) ].

(** The body returned with [status=fail] or [status=error]. *)
Definition message_payload (status message : string) : pyval :=
  PDict [ ("status", PStr status); ("message", PStr message) ].

(** The prompt sent for a match record. *)
Definition prompt_for (r : pydict) : string :=
  prompt (dict_get r "title" PNone) (dict_get r "artist" PNone).

(** The ways the enrichment path fails that the handler turns into
    placeholder text. *)
Inductive enrichment_failure : Type :=
| NotInitialized
| ApiError (text : string)
| Unparsable (reply : string).

Definition fails_with (r : pydict) (f : enrichment_failure) : Prop :=
  match f with
  | NotInitialized => gemini_client = None
  | ApiError text =>
      exists client,
        gemini_client = Some client /\
        generate_content client "gemini-2.5-flash" (prompt_for r)
          = GenRaise (APIError text)
  | Unparsable reply =>
      exists client,
        gemini_client = Some client /\
        generate_content client "gemini-2.5-flash" (prompt_for r)
          = GenReply (Some reply) /\
        Json.loads (clean reply) = None
  end.

(** The text substituted for [lyrics] and for [artist_info]. *)
Definition placeholders (f : enrichment_failure) : string * string :=
  match f with
  | NotInitialized => ("AI 服務未啟動。", "AI 服務未啟動。")
  | ApiError text =>
      ("Gemini API 呼叫失敗。", ("Gemini API 呼叫失敗。錯誤：" ++ text)%string)
  | Unparsable _ => ("AI 回傳格式錯誤。", "AI 回傳格式錯誤。")
  end.

(** ** Vocabulary of the further properties *)

(** The entry that one platform contributes to [links]. *)
Definition link_entry (r : pydict) (p : string * string * list string) : pydict :=
  let '(name, field, path) := p in
  if field_present r field then
    match snd (py_getpath (dict_get r field PNone) path) with
    | Ok url => [(name, url)]
    | Raise _ => []
    end
  else [].

(** The link table of a record, platform by platform in source order. *)
Definition link_table (r : pydict) : pydict := flat_map (link_entry r) platforms.

(** Every character of [s] satisfies [p]. *)
Fixpoint all_chars (p : ascii -> bool) (s : string) : bool :=
  match s with
  | EmptyString => true
  | String c s' => p c && all_chars p s'
  end.

(** The characters named by [lstrip('```json')], and the backtick. *)
Definition is_fence_char (c : ascii) : bool :=
  existsb (Ascii.eqb c) ["`"; "j"; "s"; "o"; "n"]%char.

Definition is_backtick (c : ascii) : bool := Ascii.eqb c "`".

(** A JSON value that is not a container, and a value that is a scalar
    or a list of scalars. *)
Definition is_scalar (v : pyval) : bool :=
  match v with
  | PList _ | PDict _ => false
  | _ => true
  end.

Definition is_flat (v : pyval) : bool :=
  match v with
  | PDict _ => false
  | PList items => forallb is_scalar items
  | _ => true
  end.

(** The interpreter's limit on the digits of an integer literal: no text
    of at most that many characters reaches it. *)
Definition int_max_str_digits : nat := 4300.

(** The four shapes of a response. *)
Inductive response_kind : Type :=
| MissingFile
| ServerError
| Fail
| Success.

Definition has_kind (resp : response) (k : response_kind) : Prop :=
  match k with
  | MissingFile =>
      resp = (message_payload "error" "未找到音訊檔案。", 400%Z)
  | ServerError =>
      exists message, resp = (message_payload "error" message, 500%Z)
  | Fail =>
      exists message, resp = (message_payload "fail" message, 200%Z)
  | Success =>
      exists title artist album links lyrics artist_info,
        resp = (success_payload title artist album links lyrics artist_info, 200%Z)
  end.

(** ** Properties of the handler *)

(** *** Running the monad *)

Lemma bind_ret {A B : Type} (a : A) (k : A -> M B) : bind (ret a) k = k a.
Proof. unfold bind, ret. destruct (k a) as [t r]. reflexivity. Qed.

Lemma bind_raise {A B : Type} (e : pyexn) (k : A -> M B) :
  bind (raise e) k = raise e.
Proof. reflexivity. Qed.

Lemma bind_emit {B : Type} (ev : event) (k : unit -> M B) :
  bind (emit ev) k = (ev :: fst (k tt), snd (k tt)).
Proof. unfold bind, emit. destruct (k tt) as [t r]. reflexivity. Qed.

Lemma bind_ok {A B : Type} (t : list event) (a : A) (k : A -> M B) :
  bind (t, Ok a) k = ((t ++ fst (k a))%list, snd (k a)).
Proof. unfold bind. destruct (k a) as [t' r]. reflexivity. Qed.

Lemma try_except_ok {A : Type} (t : list event) (a : A) (h : pyexn -> M A) :
  try_except (t, Ok a) h = (t, Ok a).
Proof. reflexivity. Qed.

Lemma try_except_raise {A : Type} (t : list event) (e : pyexn) (h : pyexn -> M A) :
  try_except (t, Raise e) h = ((t ++ fst (h e))%list, snd (h e)).
Proof. unfold try_except. destruct (h e) as [t' r]. reflexivity. Qed.

Lemma recognize_except_returns (e : pyexn) :
  exists resp, recognize_except e = ([], Ok resp).
Proof. destruct e; eexists; reflexivity. Qed.

Lemma recognize_except_unexpected (e : pyexn) :
  is_HTTPError e = false ->
  recognize_except e
  = ([], Ok (message_payload "error" ("後端未知錯誤：" ++ exn_str e), 500%Z)).
Proof. destruct e; simpl; intros H; try discriminate H; reflexivity. Qed.

(** *** The statements before the [try] block *)

Lemma request_files_cases (files : request) :
  (exists e, request_files files = ([], Raise e))
  \/ (exists fields, request_files files = ([], Ok fields)).
Proof.
  unfold request_files. destruct (parse_error files) as [e|].
  - left. exists e. reflexivity.
  - destruct (Nat.ltb max_form_parts (length (parts files))).
    + left. eexists. reflexivity.
    + right. eexists. reflexivity.
Qed.

(** Once the upload has been obtained, the handler is its [try] block
    under its [except] clauses. *)
Lemma recognize_endpoint_uploaded (files : request) (audio_file : upload) :
  files_lookup files "audio_file" = Some audio_file ->
  recognize_endpoint files
  = try_except (recognize_try audd_url audd_data (audd_files audio_file))
      recognize_except.
Proof.
  unfold files_lookup, recognize_endpoint. intros H.
  destruct (request_files_cases files) as [[e Hreq]|[fields Hreq]];
    rewrite Hreq in *; cbn [snd] in H; [discriminate H|].
  change (@nil event, @Ok (list (string * file_storage)) fields) with (ret fields).
  rewrite bind_ret.
  destruct (field_lookup fields "audio_file") as [f|]; [|discriminate H].
  unfold read. destruct (storage_read f) as [e|bytes]; [discriminate H|].
  injection H as <-. rewrite bind_ret. reflexivity.
Qed.

Lemma recognize_endpoint_no_field (files : request)
    (fields : list (string * file_storage)) :
  request_files files = ([], Ok fields) ->
  field_lookup fields "audio_file" = None ->
  recognize_endpoint files
  = ([], Ok (message_payload "error" "未找到音訊檔案。", 400%Z)).
Proof.
  intros Hreq Hfield. unfold recognize_endpoint. rewrite Hreq.
  change (@nil event, @Ok (list (string * file_storage)) fields) with (ret fields).
  rewrite bind_ret, Hfield. reflexivity.
Qed.

Lemma recognize_endpoint_escape (files : request) (e : pyexn) :
  raised_before_try files e ->
  recognize_endpoint files = ([], Raise e).
Proof.
  intros [Hreq|(fields & f & Hreq & Hfield & Hread)];
    unfold recognize_endpoint; rewrite Hreq.
  - reflexivity.
  - change (@nil event, @Ok (list (string * file_storage)) fields) with (ret fields).
    rewrite bind_ret, Hfield. unfold read. rewrite Hread. reflexivity.
Qed.

(** The three ways through the statements before the [try] block: one of
    them raises, the form has no [audio_file], or the upload is
    obtained. *)
Lemma before_try_cases (files : request) :
  (exists e, raised_before_try files e
             /\ files_lookup files "audio_file" = None)
  \/ (exists fields,
        request_files files = ([], Ok fields)
        /\ field_lookup fields "audio_file" = None
        /\ files_lookup files "audio_file" = None)
  \/ (exists audio_file, files_lookup files "audio_file" = Some audio_file).
Proof.
  unfold files_lookup, raised_before_try.
  destruct (request_files_cases files) as [[e Hreq]|[fields Hreq]];
    rewrite Hreq; cbn [snd].
  - left. exists e. split; [left; reflexivity | reflexivity].
  - destruct (field_lookup fields "audio_file") as [f|] eqn:Hfield.
    + destruct (storage_read f) as [e|bytes] eqn:Hread.
      * left. exists e. split; [|reflexivity].
        right. exists fields, f. auto.
      * right. right. eexists. reflexivity.
    + right. left. exists fields. auto.
Qed.

Lemma not_uploaded_trace (files : request) :
  files_lookup files "audio_file" = None ->
  fst (recognize_endpoint files) = [].
Proof.
  intros Hnone.
  destruct (before_try_cases files)
    as [(e & Hraise & _)|[(fields & Hreq & Hfield & _)|(audio_file & Hfile)]].
  - now rewrite (recognize_endpoint_escape _ _ Hraise).
  - now rewrite (recognize_endpoint_no_field _ _ Hreq Hfield).
  - rewrite Hfile in Hnone. discriminate Hnone.
Qed.

(** *** Strings *)

Lemma append_assoc (a b c : string) : (a ++ b) ++ c = a ++ b ++ c.
Proof. induction a as [|x a IH]; simpl; [reflexivity | now rewrite IH]. Qed.

Lemma append_empty_r (a : string) : a ++ EmptyString = a.
Proof. induction a as [|x a IH]; simpl; [reflexivity | now rewrite IH]. Qed.

Lemma contains_middle (a s b : string) : contains (a ++ s ++ b) s.
Proof. exists a, b. reflexivity. Qed.

Lemma contains_suffix (a s : string) : contains (a ++ s) s.
Proof. exists a, EmptyString. now rewrite append_empty_r. Qed.

(** *** Reaching the inspection of the decoded body *)

Lemma raise_for_status_passes (url : string) (resp : Response) :
  ((status_code resp < 400)%Z \/ (600 <= status_code resp)%Z) ->
  raise_for_status url resp = ret tt.
Proof.
  intros H. unfold raise_for_status.
  destruct (Z.leb_spec 400 (status_code resp));
    destruct (Z.ltb_spec (status_code resp) 500);
    destruct (Z.leb_spec 500 (status_code resp));
    destruct (Z.ltb_spec (status_code resp) 600);
    simpl; try reflexivity; lia.
Qed.

Lemma raise_for_status_raises (url : string) (resp : Response) :
  (400 <= status_code resp < 600)%Z ->
  exists text, raise_for_status url resp = raise (HTTPError (status_code resp) text).
Proof.
  intros H. unfold raise_for_status.
  destruct (Z.leb_spec 400 (status_code resp));
    destruct (Z.ltb_spec (status_code resp) 500);
    destruct (Z.leb_spec 500 (status_code resp));
    destruct (Z.ltb_spec (status_code resp) 600);
    simpl; try (eexists; reflexivity); lia.
Qed.

Lemma recognize_try_decoded (files : request) (audio_file : upload) (body : pyval) :
  decoded_body files audio_file body ->
  recognize_try audd_url audd_data (audd_files audio_file)
  = (AuddPost audd_url audd_data (audd_files audio_file) :: fst (on_result body),
     snd (on_result body)).
Proof.
  intros (resp & _ & Hpost & Hcode & Hbody).
  unfold recognize_try. rewrite bind_emit, Hpost.
  rewrite (raise_for_status_passes _ _ Hcode), bind_ret.
  unfold response_json. rewrite Hbody, bind_ret. reflexivity.
Qed.

Lemma recognize_endpoint_decoded (files : request) (audio_file : upload)
    (body : pyval) (t : list event) (resp : response) :
  decoded_body files audio_file body ->
  on_result body = (t, Ok resp) ->
  recognize_endpoint files
  = (AuddPost audd_url audd_data (audd_files audio_file) :: t, Ok resp).
Proof.
  intros Hdec Hres. pose proof Hdec as (r0 & Hfile & _).
  rewrite (recognize_endpoint_uploaded _ _ Hfile).
  rewrite (recognize_try_decoded _ _ _ Hdec), Hres. reflexivity.
Qed.

(** *** The claims *)

(** C8 (as amended). A request whose form is parsed without an exception
    and holds no file under [audio_file] is answered with HTTP 400 and
    [status=error] (with a message); the trace is empty, so neither
    outbound service has been called. *)
Theorem C8_missing_audio_file (files : request)
    (fields : list (string * file_storage)) :
  request_files files = ([], Ok fields) ->
  field_lookup fields "audio_file" = None ->
  recognize_endpoint files
  = ([], Ok (message_payload "error" "未找到音訊檔案。", 400%Z))
  /\ external_calls (fst (recognize_endpoint files)) = [].
Proof.
  intros Hreq Hfield.
  rewrite (recognize_endpoint_no_field _ _ Hreq Hfield). split; reflexivity.
Qed.

(** C7. When the fingerprinting POST comes back with an HTTP error status
    (400 to 599, the range on which [raise_for_status] raises), the
    endpoint answers HTTP 500, [status=error], and the message ends with
    the upstream status code in decimal. *)
Theorem C7_upstream_http_error (files : request) (audio_file : upload)
    (resp : Response) :
  files_lookup files "audio_file" = Some audio_file ->
  requests_post audd_url audd_data (audd_files audio_file) = PostReturn resp ->
  (400 <= status_code resp < 600)%Z ->
  recognize_endpoint files
  = ([AuddPost audd_url audd_data (audd_files audio_file)],
     Ok (message_payload "error"
           ("HTTP 連線錯誤：" ++ str_of_int (status_code resp)), 500%Z)).
Proof.
  intros Hfile Hpost Hcode.
  rewrite (recognize_endpoint_uploaded _ _ Hfile).
  unfold recognize_try. rewrite bind_emit, Hpost.
  destruct (raise_for_status_raises audd_url resp Hcode) as [text Hraise].
  rewrite Hraise, bind_raise. reflexivity.
Qed.

(** C2 (as amended). Whenever the [try] block of the handler raises an
    exception other than [HTTPError], the response is HTTP 500 with
    [status=error] and a message made of a fixed prefix followed by
    [str(e)]; a request that gets past the statements before the [try]
    block always gets a response, never an escaping exception; and what
    those statements raise leaves the handler, before any outbound
    call. *)
Theorem C2_unexpected_exception_reported (files : request) :
  (forall audio_file t e,
     files_lookup files "audio_file" = Some audio_file ->
     recognize_try audd_url audd_data (audd_files audio_file) = (t, Raise e) ->
     is_HTTPError e = false ->
     recognize_endpoint files
     = (t, Ok (message_payload "error" ("後端未知錯誤：" ++ exn_str e), 500%Z)))
  /\ ((forall e, ~ raised_before_try files e) ->
      exists t resp, recognize_endpoint files = (t, Ok resp))
  /\ (forall e,
        raised_before_try files e -> recognize_endpoint files = ([], Raise e)).
Proof.
  split; [|split].
  - intros audio_file t e Hfile Htry Hclass.
    rewrite (recognize_endpoint_uploaded _ _ Hfile), Htry, try_except_raise.
    rewrite (recognize_except_unexpected e Hclass). simpl.
    rewrite app_nil_r. reflexivity.
  - intros Hnone.
    destruct (before_try_cases files)
      as [(e & Hraise & _)|[(fields & Hreq & Hfield & _)|(audio_file & Hfile)]].
    + destruct (Hnone e Hraise).
    + rewrite (recognize_endpoint_no_field _ _ Hreq Hfield).
      do 2 eexists; reflexivity.
    + rewrite (recognize_endpoint_uploaded _ _ Hfile).
      destruct (recognize_try audd_url audd_data (audd_files audio_file))
        as [t [resp|e]]; [do 2 eexists; reflexivity|].
      rewrite try_except_raise.
      destruct (recognize_except_returns e) as [resp Hresp].
      rewrite Hresp. do 2 eexists; reflexivity.
  - intros e. apply recognize_endpoint_escape.
Qed.

(** C5 (as amended). When the decoded body is an object carrying the
    error marker and its [error] entry is absent or an object, the endpoint
    answers HTTP 200, [status=fail], with the message built from the
    formatted error code and error message (or their defaults), both of
    which occur in it. *)
Theorem C5_service_error_reported (files : request) (audio_file : upload)
    (result info : pydict) :
  decoded_body files audio_file (PDict result) ->
  eq_str (dict_get result "status" PNone) "error" = true ->
  dict_get result "error" (PDict []) = PDict info ->
  let code := py_str (dict_get info "error_code" (PStr "N/A")) in
  let text := py_str (dict_get info "error_message"
                        (PStr "Audd.io 回傳了未知的錯誤訊息。")) in
  let message := "服務錯誤 (" ++ code ++ ")：" ++ text in
  recognize_endpoint files
  = ([AuddPost audd_url audd_data (audd_files audio_file)],
     Ok (message_payload "fail" message, 200%Z))
  /\ contains message code
  /\ contains message text
  /\ (forall c, dict_lookup info "error_code" = Some c -> code = py_str c)
  /\ (forall m, dict_lookup info "error_message" = Some m -> text = py_str m).
Proof.
  intros Hdec Hstatus Herror code text message.
  split; [|split; [|split; [|split]]].
  - apply (recognize_endpoint_decoded _ _ _ _ _ Hdec).
    unfold on_result. unfold py_get at 1. rewrite bind_ret, Hstatus.
    unfold py_get at 1. rewrite bind_ret, Herror.
    unfold py_get. rewrite !bind_ret. reflexivity.
  - apply contains_middle.
  - subst message. rewrite <- !append_assoc. apply contains_suffix.
  - intros c Hc. subst code. unfold dict_get. rewrite Hc. reflexivity.
  - intros m Hm. subst text. unfold dict_get. rewrite Hm. reflexivity.
Qed.

(** C6 (as amended). When the decoded body is an object without the
    error marker whose [result] entry is missing or falsy, the endpoint
    answers HTTP 200, [status=fail], with the fixed no-match message. *)
Theorem C6_no_match_reported (files : request) (audio_file : upload)
    (result : pydict) :
  decoded_body files audio_file (PDict result) ->
  eq_str (dict_get result "status" PNone) "error" = false ->
  truthy (dict_get result "result" PNone) = false ->
  recognize_endpoint files
  = ([AuddPost audd_url audd_data (audd_files audio_file)],
     Ok (message_payload "fail"
           "無法辨識：成功連線至 Audd.io，但無法在資料庫中找到匹配的音樂。", 200%Z)).
Proof.
  intros Hdec Hstatus Hresult.
  apply (recognize_endpoint_decoded _ _ _ _ _ Hdec).
  unfold on_result. unfold py_get at 1. rewrite bind_ret, Hstatus.
  unfold py_get at 1. rewrite bind_ret, Hresult. reflexivity.
Qed.

(** *** The enrichment call *)

(** When the constructor raises, the module keeps [None] as its handle. *)
Lemma init_gemini_client_failed (key : option string)
    (construct : option string -> pyexn + Client) (e : pyexn) :
  construct key = inl e ->
  snd (init_gemini_client key construct) = Ok None.
Proof.
  intros H. unfold init_gemini_client. rewrite H.
  destruct key as [[|c k]|]; reflexivity.
Qed.

Lemma decode_fenced_reply :
  clean fenced_reply = " {" ++ q "lyrics" ++ ":" ++ q "L" ++ ","
                       ++ q "artist_info" ++ ":" ++ q "A" ++ "} "
  /\ decode_reply (Some fenced_reply)
     = ([], Ok (PDict [("lyrics", PStr "L"); ("artist_info", PStr "A")])).
Proof. split; vm_compute; reflexivity. Qed.

Lemma get_song_info_reply (client : Client) (title artist : pyval)
    (text : option string) :
  gemini_client = Some client ->
  generate_content client "gemini-2.5-flash" (prompt title artist) = GenReply text ->
  get_song_info_from_gemini title artist
  = (GeminiGenerate "gemini-2.5-flash" (prompt title artist)
       :: fst (try_except (decode_reply text) (except_clauses true text)),
     snd (try_except (decode_reply text) (except_clauses true text))).
Proof.
  intros Hclient Hgen. unfold get_song_info_from_gemini.
  rewrite Hclient, bind_emit, Hgen. reflexivity.
Qed.

Lemma get_song_info_raise (client : Client) (title artist : pyval) (e : pyexn) :
  gemini_client = Some client ->
  generate_content client "gemini-2.5-flash" (prompt title artist) = GenRaise e ->
  get_song_info_from_gemini title artist
  = (GeminiGenerate "gemini-2.5-flash" (prompt title artist)
       :: fst (except_clauses false None e),
     snd (except_clauses false None e)).
Proof.
  intros Hclient Hgen. unfold get_song_info_from_gemini.
  rewrite Hclient, bind_emit, Hgen. reflexivity.
Qed.

(** C3. When the model replies with the fenced text
    [```json {"lyrics":"L","artist_info":"A"} ```], the clean-up leaves the
    bare object between two spaces and the enrichment result is exactly the
    mapping from [lyrics] to [L] and from [artist_info] to [A]. *)
Theorem C3_fenced_reply_parsed (client : Client) (title artist : pyval) :
  gemini_client = Some client ->
  generate_content client "gemini-2.5-flash" (prompt title artist)
    = GenReply (Some fenced_reply) ->
  clean fenced_reply = " {" ++ q "lyrics" ++ ":" ++ q "L" ++ ","
                       ++ q "artist_info" ++ ":" ++ q "A" ++ "} "
  /\ get_song_info_from_gemini title artist
     = ([GeminiGenerate "gemini-2.5-flash" (prompt title artist)],
        Ok (PDict [("lyrics", PStr "L"); ("artist_info", PStr "A")])).
Proof.
  intros Hclient Hgen. destruct decode_fenced_reply as [Hclean Hdecode].
  split; [exact Hclean|].
  rewrite (get_song_info_reply _ _ _ _ Hclient Hgen), Hdecode.
  reflexivity.
Qed.

(** *** Link extraction *)

Lemma dict_get_present (r : pydict) (field : string) :
  field_present r field = true ->
  dict_lookup r field = Some (dict_get r field PNone).
Proof.
  unfold field_present, dict_get.
  destruct (dict_lookup r field); [reflexivity | discriminate].
Qed.

Lemma py_getitem_trace (v : pyval) (k : string) : fst (py_getitem v k) = [].
Proof.
  destruct v; try reflexivity. simpl. destruct (dict_lookup d k); reflexivity.
Qed.

Lemma py_getpath_trace (path : list string) :
  forall v, fst (py_getpath v path) = [].
Proof.
  induction path as [|k path IH]; intros v; simpl; [reflexivity|].
  pose proof (py_getitem_trace v k) as Ht.
  destruct (py_getitem v k) as [t [x|e]]; simpl in Ht; subst t; simpl.
  - specialize (IH x). destruct (py_getpath x path) as [t' r'].
    simpl in IH. subst t'. reflexivity.
  - reflexivity.
Qed.

Lemma py_getitem_not_http (v : pyval) (k : string) (e : pyexn) :
  snd (py_getitem v k) = Raise e -> is_HTTPError e = false.
Proof.
  destruct v; simpl; try (intros H; inversion H; reflexivity).
  destruct (dict_lookup d k); simpl; intros H; inversion H; reflexivity.
Qed.

Lemma py_getpath_not_http (path : list string) :
  forall v e, snd (py_getpath v path) = Raise e -> is_HTTPError e = false.
Proof.
  induction path as [|k path IH]; intros v e; simpl; [discriminate|].
  pose proof (py_getitem_not_http v k) as Hk.
  destruct (py_getitem v k) as [t [x|e']]; simpl in *.
  - specialize (IH x e). destruct (py_getpath x path) as [t' r']. simpl in *.
    exact IH.
  - intros H. apply Hk. exact H.
Qed.

(** One guarded assignment, by cases on the guard and on the lookup. *)
Lemma add_link_spec (r links : pydict) (name field : string) (path : list string) :
  add_link (PDict r) links (name, field, path)
  = if field_present r field then
      match snd (py_getpath (dict_get r field PNone) path) with
      | Ok url => ([], Ok (dict_set links name url))
      | Raise e => ([], Raise e)
      end
    else ([], Ok links).
Proof.
  unfold add_link, py_get. rewrite bind_ret. fold (field_present r field).
  destruct (field_present r field) eqn:Hp; [|reflexivity].
  unfold py_getitem. rewrite (dict_get_present _ _ Hp), bind_ret.
  pose proof (py_getpath_trace path (dict_get r field PNone)) as Ht.
  destruct (py_getpath (dict_get r field PNone) path) as [t [url|e]];
    simpl in Ht; subst t; reflexivity.
Qed.

Lemma dict_has_set (d : pydict) (k k' : string) (v : pyval) :
  dict_has (dict_set d k v) k' = String.eqb k k' || dict_has d k'.
Proof.
  unfold dict_has. induction d as [|[k0 v0] d IH]; simpl.
  - destruct (String.eqb k k'); reflexivity.
  - destruct (String.eqb_spec k0 k) as [->|Hne]; simpl.
    + destruct (String.eqb k k'); reflexivity.
    + destruct (String.eqb_spec k0 k') as [->|Hne'].
      * now rewrite orb_true_r.
      * exact IH.
Qed.

Lemma link_ok_all (r : pydict) :
  links_well_formed r = true ->
  forall p, In p platforms -> link_ok r p = true.
Proof. intros H. apply forallb_forall. exact H. Qed.

Lemma platform_cases (r : pydict) :
  link_ok r ("Spotify", "spotify", ["external_urls"; "spotify"])
  && link_ok r ("YouTube Music", "youtube", ["url"])
  && link_ok r ("Apple Music", "apple_music", ["url"])
  && link_ok r ("Deezer", "deezer", ["link"])
  = links_well_formed r.
Proof.
  unfold links_well_formed, platforms, forallb.
  rewrite andb_true_r, !andb_assoc. reflexivity.
Qed.

(** Unfold the next guarded assignment and split on its guard and on the
    lookup below the entry. *)
Ltac link_step r field path :=
  rewrite ?(add_link_spec r _ _ field path);
  destruct (field_present r field);
  [destruct (snd (py_getpath (dict_get r field PNone) path)) eqn:?|];
  cbv beta iota;
  change (@nil event, @Ok pydict ?a) with (@ret pydict a);
  change (@nil event, @Raise pydict ?e) with (@raise pydict e);
  rewrite ?bind_ret, ?bind_raise.

Lemma extract_links_ok (r : pydict) :
  links_well_formed r = true ->
  exists links,
    extract_links (PDict r) = ([], Ok links)
    /\ forall k, dict_has links k = link_present r k.
Proof.
  rewrite <- platform_cases.
  unfold link_present, platforms, existsb, link_ok, extract_links.
  cbn [fst snd].
  link_step r "spotify" ["external_urls"; "spotify"];
    link_step r "youtube" ["url"];
    link_step r "apple_music" ["url"];
    link_step r "deezer" ["link"];
    cbn [andb fst snd]; intros H; try discriminate H;
    (eexists; split; [reflexivity|]);
    intros k; rewrite ?dict_has_set; unfold dict_has, dict_lookup;
    destruct (String.eqb "Spotify" k), (String.eqb "YouTube Music" k),
      (String.eqb "Apple Music" k), (String.eqb "Deezer" k); reflexivity.
Qed.

Lemma extract_links_raises (r : pydict) :
  links_well_formed r = false ->
  exists e, extract_links (PDict r) = ([], Raise e) /\ is_HTTPError e = false.
Proof.
  rewrite <- platform_cases.
  unfold link_ok, extract_links.
  link_step r "spotify" ["external_urls"; "spotify"];
    link_step r "youtube" ["url"];
    link_step r "apple_music" ["url"];
    link_step r "deezer" ["link"];
    cbn [andb]; intros H; try discriminate H;
    (eexists; split; [reflexivity | eapply py_getpath_not_http; eassumption]).
Qed.

Lemma link_present_platform (r : pydict) (name field : string) (path : list string) :
  In (name, field, path) platforms ->
  link_present r name = field_present r field.
Proof.
  unfold platforms. cbn [In].
  intros [H|[H|[H|[H|[]]]]]; inversion H; subst;
    unfold link_present, platforms, existsb; cbn [fst snd];
    repeat match goal with
           | |- context [String.eqb ?a ?b] =>
               let v := eval vm_compute in (String.eqb a b) in
               change (String.eqb a b) with v
           end;
    cbn [andb orb]; rewrite ?orb_false_r; reflexivity.
Qed.

Lemma link_present_name (r : pydict) (k : string) :
  link_present r k = true -> In k platform_names.
Proof.
  unfold link_present. intros H.
  apply existsb_exists in H. destruct H as (p & Hin & Hp).
  apply andb_true_iff in Hp. destruct Hp as [Hk _].
  apply String.eqb_eq in Hk. subst k.
  exact (in_map (fun p => fst (fst p)) platforms p Hin).
Qed.

(** *** The match branch *)

Lemma on_result_match (result r : pydict) :
  eq_str (dict_get result "status" PNone) "error" = false ->
  dict_lookup result "result" = Some (PDict r) ->
  r <> [] ->
  on_result (PDict result) = on_match (PDict r).
Proof.
  intros Hstatus Hlookup Hne.
  unfold on_result. unfold py_get at 1. rewrite bind_ret, Hstatus.
  unfold py_get at 1. rewrite bind_ret.
  unfold dict_get, py_getitem. rewrite Hlookup.
  destruct r as [|kv r]; [contradiction|].
  cbn [truthy negb]. rewrite bind_ret. reflexivity.
Qed.

Lemma recognize_endpoint_match (files : request) (audio_file : upload) (r : pydict) :
  fingerprint_match files audio_file r ->
  recognize_endpoint files
  = try_except
      (AuddPost audd_url audd_data (audd_files audio_file) :: fst (on_match (PDict r)),
       snd (on_match (PDict r)))
      recognize_except.
Proof.
  intros (resp & result & Hfile & Hpost & Hcode & Hbody & Hstatus & Hlookup & Hne).
  assert (Hdec : decoded_body files audio_file (PDict result)).
  { exists resp. repeat split; assumption. }
  rewrite (recognize_endpoint_uploaded _ _ Hfile).
  rewrite (recognize_try_decoded _ _ _ Hdec).
  rewrite (on_result_match _ _ Hstatus Hlookup Hne). reflexivity.
Qed.

Lemma on_match_ok (r d links : pydict) (t : list event) :
  get_song_info_from_gemini (dict_get r "title" PNone) (dict_get r "artist" PNone)
    = (t, Ok (PDict d)) ->
  extract_links (PDict r) = ([], Ok links) ->
  on_match (PDict r)
  = (t, Ok (success_payload (dict_get r "title" PNone) (dict_get r "artist" PNone)
              (dict_get r "album" PNone) links
              (dict_get d "lyrics" (PStr "未能獲取歌詞。"))
              (dict_get d "artist_info" (PStr "未能獲取歌手簡介。")), 200%Z)).
Proof.
  intros Hgemini Hlinks.
  unfold on_match. unfold py_get at 1. rewrite bind_ret.
  unfold py_get at 1. rewrite bind_ret.
  rewrite Hgemini, bind_ok. cbv beta. rewrite Hlinks.
  change (@nil event, @Ok pydict links) with (@ret pydict links).
  rewrite bind_ret. unfold py_get. rewrite !bind_ret.
  cbn [fst snd ret]. rewrite app_nil_r. reflexivity.
Qed.

Lemma on_match_raises (r : pydict) (t : list event) (e : pyexn) :
  get_song_info_from_gemini (dict_get r "title" PNone) (dict_get r "artist" PNone)
    = (t, Raise e) ->
  on_match (PDict r) = (t, Raise e).
Proof.
  intros Hgemini.
  unfold on_match. unfold py_get at 1. rewrite bind_ret.
  unfold py_get at 1. rewrite bind_ret.
  rewrite Hgemini. reflexivity.
Qed.

Lemma on_match_links_raise (r : pydict) (t : list event) (g : pyval) (e : pyexn) :
  get_song_info_from_gemini (dict_get r "title" PNone) (dict_get r "artist" PNone)
    = (t, Ok g) ->
  extract_links (PDict r) = ([], Raise e) ->
  on_match (PDict r) = (t, Raise e).
Proof.
  intros Hgemini Hlinks.
  unfold on_match. unfold py_get at 1. rewrite bind_ret.
  unfold py_get at 1. rewrite bind_ret.
  rewrite Hgemini, bind_ok. cbv beta. rewrite Hlinks.
  cbn [bind fst snd]. rewrite app_nil_r. reflexivity.
Qed.

(** The only exception that leaves [get_song_info_from_gemini]. *)
Lemma get_song_info_escape (title artist : pyval) (t : list event) (e : pyexn) :
  get_song_info_from_gemini title artist = (t, Raise e) ->
  e = UnboundLocalError "json".
Proof.
  unfold get_song_info_from_gemini.
  destruct gemini_client as [client|]; [|discriminate].
  rewrite bind_emit.
  destruct (generate_content client "gemini-2.5-flash" (prompt title artist))
    as [e0|text].
  - unfold except_clauses. destruct (is_APIError e0); cbn.
    + discriminate.
    + intros H. inversion H. reflexivity.
  - destruct (decode_reply text) as [t0 [v|e1]].
    + cbn. discriminate.
    + rewrite try_except_raise. unfold except_clauses.
      destruct (is_APIError e1); [cbn; discriminate|].
      destruct (is_JSONDecodeError e1); cbn; discriminate.
Qed.

Lemma on_match_not_object (r : pydict) (t : list event) (g : pyval) (links : pydict) :
  get_song_info_from_gemini (dict_get r "title" PNone) (dict_get r "artist" PNone)
    = (t, Ok g) ->
  extract_links (PDict r) = ([], Ok links) ->
  (forall d, g <> PDict d) ->
  on_match (PDict r) = (t, Raise (no_attribute g "get")).
Proof.
  intros Hgemini Hlinks Hg.
  unfold on_match. unfold py_get at 1. rewrite bind_ret.
  unfold py_get at 1. rewrite bind_ret.
  rewrite Hgemini, bind_ok. cbv beta. rewrite Hlinks.
  change (@nil event, @Ok pydict links) with (@ret pydict links).
  rewrite bind_ret. unfold py_get at 1. rewrite bind_ret.
  destruct g; try (cbn; rewrite app_nil_r; reflexivity).
  exfalso. apply (Hg d). reflexivity.
Qed.

(** The match branch either raises an exception that the second [except]
    clause of the handler receives, or returns the success payload with
    the extracted links. *)
Lemma on_match_cases (r : pydict) :
  (exists t e, on_match (PDict r) = (t, Raise e) /\ is_HTTPError e = false)
  \/ (exists t d links,
        extract_links (PDict r) = ([], Ok links)
        /\ on_match (PDict r)
           = (t, Ok (success_payload (dict_get r "title" PNone)
                       (dict_get r "artist" PNone) (dict_get r "album" PNone) links
                       (dict_get d "lyrics" (PStr "未能獲取歌詞。"))
                       (dict_get d "artist_info" (PStr "未能獲取歌手簡介。")), 200%Z))).
Proof.
  destruct (get_song_info_from_gemini (dict_get r "title" PNone)
              (dict_get r "artist" PNone)) as [t [g|e]] eqn:Hgemini.
  - destruct (links_well_formed r) eqn:Hwf.
    + destruct (extract_links_ok r Hwf) as (links & Hlinks & _).
      assert (Hg : (exists d, g = PDict d) \/ (forall d, g <> PDict d)).
      { destruct g; try (right; intros d0; discriminate). left. eauto. }
      destruct Hg as [[d ->]|Hg].
      * right. exists t, d, links. split; [exact Hlinks|].
        apply on_match_ok; assumption.
      * left. exists t, (no_attribute g "get"). split; [|reflexivity].
        apply (on_match_not_object r t g links); assumption.
    + destruct (extract_links_raises r Hwf) as (e & Hlinks & Hclass).
      left. exists t, e. split; [|exact Hclass].
      apply (on_match_links_raise r t g e); assumption.
  - left. exists t, e. split; [apply on_match_raises; exact Hgemini|].
    rewrite (get_song_info_escape _ _ _ _ Hgemini). reflexivity.
Qed.

(** The [links] of a success response are the extracted ones. *)
Lemma success_links (files : request) (audio_file : upload) (r : pydict)
    (t : list event) (title artist album : pyval) (links : pydict)
    (lyrics artist_info : pyval) :
  fingerprint_match files audio_file r ->
  recognize_endpoint files
  = (t, Ok (success_payload title artist album links lyrics artist_info, 200%Z)) ->
  extract_links (PDict r) = ([], Ok links).
Proof.
  intros Hmatch. rewrite (recognize_endpoint_match _ _ _ Hmatch).
  destruct (on_match_cases r) as [(t0 & e & Hrun & Hclass)|(t0 & d & links0 & Hlinks & Hrun)];
    rewrite Hrun; cbn [fst snd].
  - rewrite try_except_raise, (recognize_except_unexpected e Hclass).
    cbn [fst snd]. intros H. inversion H.
  - rewrite try_except_ok. intros H. inversion H. subst. exact Hlinks.
Qed.

(** *** The table of links *)

Lemma dict_lookup_set (d : pydict) (k k' : string) (v : pyval) :
  dict_lookup (dict_set d k v) k'
  = if String.eqb k k' then Some v else dict_lookup d k'.
Proof.
  induction d as [|[k0 v0] d IH]; simpl.
  - reflexivity.
  - destruct (String.eqb_spec k0 k) as [->|Hne]; simpl.
    + destruct (String.eqb k k'); reflexivity.
    + rewrite IH. destruct (String.eqb_spec k k') as [->|Hne']; [|reflexivity].
      destruct (String.eqb_spec k0 k') as [->|_]; [contradiction | reflexivity].
Qed.

Lemma link_entry_cases (r : pydict) (name field : string) (path : list string) :
  link_entry r (name, field, path) = []
  \/ exists url,
       field_present r field = true
       /\ snd (py_getpath (dict_get r field PNone) path) = Ok url
       /\ link_entry r (name, field, path) = [(name, url)].
Proof.
  unfold link_entry.
  destruct (field_present r field); [|left; reflexivity].
  destruct (snd (py_getpath (dict_get r field PNone) path)) as [url|e];
    [|left; reflexivity].
  right. exists url. repeat split.
Qed.

Lemma extract_links_table (r : pydict) :
  links_well_formed r = true ->
  extract_links (PDict r) = ([], Ok (link_table r)).
Proof.
  rewrite <- platform_cases.
  unfold link_table, platforms, flat_map, link_entry, link_ok, extract_links.
  link_step r "spotify" ["external_urls"; "spotify"];
    link_step r "youtube" ["url"];
    link_step r "apple_music" ["url"];
    link_step r "deezer" ["link"];
    cbn [andb]; intros H; try discriminate H; reflexivity.
Qed.

(** Split the link table into the four entries, each empty or a single
    pair. *)
Ltac split_table r :=
  unfold link_table, platforms; cbn [flat_map];
  destruct (link_entry_cases r "Spotify" "spotify" ["external_urls"; "spotify"])
    as [?E|(?u & ?Hp & ?Hu & ?E)];
  destruct (link_entry_cases r "YouTube Music" "youtube" ["url"])
    as [?E|(?u & ?Hp & ?Hu & ?E)];
  destruct (link_entry_cases r "Apple Music" "apple_music" ["url"])
    as [?E|(?u & ?Hp & ?Hu & ?E)];
  destruct (link_entry_cases r "Deezer" "deezer" ["link"])
    as [?E|(?u & ?Hp & ?Hu & ?E)];
  repeat match goal with
         | H : link_entry r _ = _ |- _ => rewrite H; clear H
         end;
  cbn [app map fst].

Lemma link_table_keys (r : pydict) : NoDup (map fst (link_table r)).
Proof.
  split_table r;
    repeat (constructor;
            [cbn [In]; intros Hin;
             repeat (destruct Hin as [Hin|Hin]; [discriminate Hin|]);
             exact Hin|]);
    constructor.
Qed.

Lemma link_table_value (r : pydict) (name field : string) (path : list string)
    (url : pyval) :
  In (name, field, path) platforms ->
  field_present r field = true ->
  snd (py_getpath (dict_get r field PNone) path) = Ok url ->
  dict_lookup (link_table r) name = Some url.
Proof.
  intros Hin Hpresent Hurl.
  assert (Hentry : link_entry r (name, field, path) = [(name, url)]).
  { unfold link_entry. rewrite Hpresent, Hurl. reflexivity. }
  unfold platforms in Hin. cbn [In] in Hin.
  destruct Hin as [Hin|[Hin|[Hin|[Hin|[]]]]]; inversion Hin; subst;
    unfold link_table, platforms; cbn [flat_map]; rewrite Hentry;
    repeat match goal with
           | |- context [link_entry r (?n, ?f, ?p)] =>
               let E := fresh "E" in
               destruct (link_entry_cases r n f p) as [E|(? & _ & _ & E)];
               rewrite E; clear E
           end;
    reflexivity.
Qed.

Lemma recognize_endpoint_success (files : request) (audio_file : upload)
    (r d links : pydict) (t : list event) :
  fingerprint_match files audio_file r ->
  get_song_info_from_gemini (dict_get r "title" PNone) (dict_get r "artist" PNone)
    = (t, Ok (PDict d)) ->
  extract_links (PDict r) = ([], Ok links) ->
  recognize_endpoint files
  = (AuddPost audd_url audd_data (audd_files audio_file) :: t,
     Ok (success_payload (dict_get r "title" PNone) (dict_get r "artist" PNone)
           (dict_get r "album" PNone) links
           (dict_get d "lyrics" (PStr "未能獲取歌詞。"))
           (dict_get d "artist_info" (PStr "未能獲取歌手簡介。")), 200%Z)).
Proof.
  intros Hmatch Hgemini Hlinks.
  rewrite (recognize_endpoint_match _ _ _ Hmatch).
  rewrite (on_match_ok _ _ _ _ Hgemini Hlinks). reflexivity.
Qed.

(** C4. On a fingerprint match the [links] of the response are settled
    platform by platform.  When the present platform entries of the record
    carry their URL, link extraction returns the table of the record; the
    table has the key of each platform exactly when that platform's field
    is present in the record (the guard [if r.get(field)] holds), each
    platform on its own, and under that key the URL read below the field;
    every key is one of the four platform names; a record without
    [youtube] yields no [YouTube Music] key while the other platforms are
    unaffected; and the success response that the handler returns once the
    enrichment call has given an object carries this table as [links].
    Conversely, a success response returned for a match record always
    carries the table of the record, and is returned only when the present
    entries carry their URL. *)
Theorem C4_links_per_platform (r : pydict) :
  (links_well_formed r = true ->
   extract_links (PDict r) = ([], Ok (link_table r))
   /\ (forall name field path,
         In (name, field, path) platforms ->
         dict_has (link_table r) name = field_present r field)
   /\ (forall name field path,
         In (name, field, path) platforms ->
         field_present r field = true ->
         exists url,
           snd (py_getpath (dict_get r field PNone) path) = Ok url
           /\ dict_lookup (link_table r) name = Some url)
   /\ (forall k, dict_has (link_table r) k = true ->
                 In k ["Spotify"; "YouTube Music"; "Apple Music"; "Deezer"])
   /\ (dict_lookup r "youtube" = None ->
       dict_has (link_table r) "YouTube Music" = false
       /\ dict_has (link_table r) "Spotify" = field_present r "spotify"
       /\ dict_has (link_table r) "Apple Music" = field_present r "apple_music"
       /\ dict_has (link_table r) "Deezer" = field_present r "deezer")
   /\ (forall files audio_file t d,
         fingerprint_match files audio_file r ->
         get_song_info_from_gemini (dict_get r "title" PNone)
           (dict_get r "artist" PNone) = (t, Ok (PDict d)) ->
         recognize_endpoint files
         = (AuddPost audd_url audd_data (audd_files audio_file) :: t,
            Ok (success_payload (dict_get r "title" PNone)
                  (dict_get r "artist" PNone) (dict_get r "album" PNone)
                  (link_table r)
                  (dict_get d "lyrics" (PStr "未能獲取歌詞。"))
                  (dict_get d "artist_info" (PStr "未能獲取歌手簡介。")),
                200%Z))))
  /\ (forall files audio_file t title artist album links lyrics artist_info,
        fingerprint_match files audio_file r ->
        recognize_endpoint files
        = (t, Ok (success_payload title artist album links lyrics artist_info,
                  200%Z)) ->
        links_well_formed r = true /\ links = link_table r).
Proof.
  split.
  - intros Hwf. pose proof (extract_links_table r Hwf) as Htable.
    destruct (extract_links_ok r Hwf) as (links & Hrun & Hkeys).
    rewrite Htable in Hrun. inversion Hrun. subst links. clear Hrun.
    assert (Hplat : forall name field path,
               In (name, field, path) platforms ->
               dict_has (link_table r) name = field_present r field).
    { intros name field path Hin. rewrite Hkeys.
      apply (link_present_platform r name field path Hin). }
    split; [exact Htable|]. split; [exact Hplat|].
    split; [|split; [|split]].
    + intros name field path Hin Hpresent.
      pose proof (link_ok_all r Hwf _ Hin) as Hok.
      unfold link_ok in Hok. rewrite Hpresent in Hok.
      destruct (snd (py_getpath (dict_get r field PNone) path)) as [url|e] eqn:Hurl;
        [|discriminate Hok].
      exists url. split; [reflexivity|].
      apply (link_table_value r name field path url Hin Hpresent Hurl).
    + intros k Hk. rewrite Hkeys in Hk. apply (link_present_name r k Hk).
    + intros Hyt.
      rewrite (Hplat "YouTube Music" "youtube" ["url"]),
        (Hplat "Spotify" "spotify" ["external_urls"; "spotify"]),
        (Hplat "Apple Music" "apple_music" ["url"]),
        (Hplat "Deezer" "deezer" ["link"]);
        try (unfold platforms; cbn [In]; auto 10).
      unfold field_present at 1, dict_get. rewrite Hyt.
      split; [reflexivity|]. split; [reflexivity|]. split; reflexivity.
    + intros files audio_file t d Hmatch Hgemini.
      apply (recognize_endpoint_success _ _ _ _ _ _ Hmatch Hgemini Htable).
  - intros files audio_file t title artist album links lyrics artist_info
      Hmatch Hresp.
    pose proof (success_links _ _ _ _ _ _ _ _ _ _ Hmatch Hresp) as Hrun.
    destruct (links_well_formed r) eqn:Hwf.
    + split; [reflexivity|].
      rewrite (extract_links_table r Hwf) in Hrun. inversion Hrun. reflexivity.
    + destruct (extract_links_raises r Hwf) as (e & Hraise & _).
      rewrite Hraise in Hrun. discriminate Hrun.
Qed.

(** C9. On a fingerprint match whose record has a present platform entry
    under which the URL cannot be read (for Spotify the nested
    [external_urls] / [spotify] keys, for YouTube and Apple Music [url],
    for Deezer [link]), link extraction raises, and the request is
    answered with HTTP 500 and [status=error] instead of a success payload
    without that link. *)
Theorem C9_malformed_platform_entry (files : request) (audio_file : upload)
    (r : pydict) (name field : string) (path : list string) (e0 : pyexn) :
  fingerprint_match files audio_file r ->
  In (name, field, path) platforms ->
  field_present r field = true ->
  snd (py_getpath (dict_get r field PNone) path) = Raise e0 ->
  (exists e, extract_links (PDict r) = ([], Raise e))
  /\ (exists t message,
        recognize_endpoint files
        = (t, Ok (message_payload "error" message, 500%Z))).
Proof.
  intros Hmatch Hin Hpresent Hpath.
  assert (Hbad : links_well_formed r = false).
  { destruct (links_well_formed r) eqn:Hwf; [|reflexivity].
    pose proof (link_ok_all r Hwf _ Hin) as Hok.
    unfold link_ok in Hok. rewrite Hpresent, Hpath in Hok. discriminate Hok. }
  destruct (extract_links_raises r Hbad) as (e & Hlinks & Hclass).
  split; [exists e; exact Hlinks|].
  rewrite (recognize_endpoint_match _ _ _ Hmatch).
  destruct (get_song_info_from_gemini (dict_get r "title" PNone)
              (dict_get r "artist" PNone)) as [t [g|e1]] eqn:Hgemini.
  - rewrite (on_match_links_raise _ _ _ _ Hgemini Hlinks).
    cbn [fst snd]. rewrite try_except_raise.
    rewrite (recognize_except_unexpected e Hclass).
    do 2 eexists. reflexivity.
  - rewrite (on_match_raises _ _ _ Hgemini).
    cbn [fst snd]. rewrite try_except_raise.
    rewrite (get_song_info_escape _ _ _ _ Hgemini).
    do 2 eexists. reflexivity.
Qed.

Lemma get_song_info_parsed (client : Client) (title artist : pyval)
    (text : string) (v : pyval) :
  gemini_client = Some client ->
  generate_content client "gemini-2.5-flash" (prompt title artist)
    = GenReply (Some text) ->
  Json.loads (clean text) = Some v ->
  get_song_info_from_gemini title artist
  = ([GeminiGenerate "gemini-2.5-flash" (prompt title artist)], Ok v).
Proof.
  intros Hclient Hgen Hloads.
  rewrite (get_song_info_reply _ _ _ _ Hclient Hgen).
  unfold decode_reply. rewrite Hloads. reflexivity.
Qed.

(** What the handler makes of each failure of the enrichment path. *)
Lemma get_song_info_failure (r : pydict) (f : enrichment_failure) :
  fails_with r f ->
  exists t,
    get_song_info_from_gemini (dict_get r "title" PNone) (dict_get r "artist" PNone)
    = (t, Ok (enrichment (fst (placeholders f)) (snd (placeholders f)))).
Proof.
  destruct f as [|text|reply]; simpl fails_with.
  - intros Hnone. unfold get_song_info_from_gemini. rewrite Hnone.
    eexists. reflexivity.
  - intros (client & Hclient & Hgen).
    rewrite (get_song_info_raise _ _ _ _ Hclient Hgen).
    eexists. reflexivity.
  - intros (client & Hclient & Hgen & Hloads).
    rewrite (get_song_info_reply _ _ _ _ Hclient Hgen).
    unfold decode_reply. rewrite Hloads.
    eexists. reflexivity.
Qed.

(** C10. On a fingerprint match with readable platform entries, when the
    model's reply parses (after the clean-up) as a JSON object [d], the
    endpoint answers HTTP 200 with [status=success]; [lyrics] and
    [artist_info] are the entries of [d], and a missing entry is replaced
    by its own fixed fallback text; the two fallback texts are non-empty
    and differ from each other. *)
Theorem C10_missing_keys_fallback (files : request) (audio_file : upload)
    (r d : pydict) (client : Client) (text : string) :
  fingerprint_match files audio_file r ->
  links_well_formed r = true ->
  gemini_client = Some client ->
  generate_content client "gemini-2.5-flash" (prompt_for r) = GenReply (Some text) ->
  Json.loads (clean text) = Some (PDict d) ->
  let lyrics := dict_get d "lyrics" (PStr "未能獲取歌詞。") in
  let artist_info := dict_get d "artist_info" (PStr "未能獲取歌手簡介。") in
  exists links,
    extract_links (PDict r) = ([], Ok links)
    /\ recognize_endpoint files
       = ([AuddPost audd_url audd_data (audd_files audio_file);
           GeminiGenerate "gemini-2.5-flash" (prompt_for r)],
          Ok (success_payload (dict_get r "title" PNone) (dict_get r "artist" PNone)
                (dict_get r "album" PNone) links lyrics artist_info, 200%Z))
    /\ (dict_lookup d "lyrics" = None -> lyrics = PStr "未能獲取歌詞。")
    /\ (dict_lookup d "artist_info" = None -> artist_info = PStr "未能獲取歌手簡介。")
    /\ "未能獲取歌詞。" <> "未能獲取歌手簡介。"
    /\ "未能獲取歌詞。" <> EmptyString
    /\ "未能獲取歌手簡介。" <> EmptyString.
Proof.
  intros Hmatch Hwf Hclient Hgen Hloads lyrics artist_info.
  destruct (extract_links_ok r Hwf) as (links & Hlinks & _).
  exists links. split; [exact Hlinks|]. split.
  - apply (recognize_endpoint_success _ _ _ _ _ _ Hmatch); [|exact Hlinks].
    exact (get_song_info_parsed client _ _ text _ Hclient Hgen Hloads).
  - subst lyrics artist_info. unfold dict_get.
    repeat split; try discriminate; intros H; rewrite H; reflexivity.
Qed.

(** C1 (as amended). On a fingerprint match with readable platform
    entries, when the client was never initialised, or the model call
    raises an API error, or the reply text cannot be parsed as JSON, the
    endpoint still answers HTTP 200 with [status=success]; [lyrics] is a
    fixed non-empty placeholder, and [artist_info] is the same placeholder
    except after an API error, where it is a fixed non-empty prefix
    followed by the text of the error. *)
Theorem C1_enrichment_failure_placeholders (files : request) (audio_file : upload)
    (r : pydict) (f : enrichment_failure) :
  fingerprint_match files audio_file r ->
  links_well_formed r = true ->
  fails_with r f ->
  let lyrics := fst (placeholders f) in
  let artist_info := snd (placeholders f) in
  exists t links,
    extract_links (PDict r) = ([], Ok links)
    /\ recognize_endpoint files
       = (t, Ok (success_payload (dict_get r "title" PNone) (dict_get r "artist" PNone)
                   (dict_get r "album" PNone) links
                   (PStr lyrics) (PStr artist_info), 200%Z))
    /\ In lyrics ["AI 服務未啟動。"; "Gemini API 呼叫失敗。"; "AI 回傳格式錯誤。"]
    /\ lyrics <> EmptyString
    /\ artist_info <> EmptyString
    /\ match f with
       | ApiError text => artist_info = "Gemini API 呼叫失敗。錯誤：" ++ text
       | _ => artist_info = lyrics
       end.
Proof.
  intros Hmatch Hwf Hfail lyrics artist_info.
  destruct (extract_links_ok r Hwf) as (links & Hlinks & _).
  destruct (get_song_info_failure r f Hfail) as (t & Hgemini).
  exists (AuddPost audd_url audd_data (audd_files audio_file) :: t), links.
  split; [exact Hlinks|]. split.
  - rewrite (recognize_endpoint_success _ _ _ _ _ _ Hmatch Hgemini Hlinks).
    reflexivity.
  - subst lyrics artist_info.
    destruct f; cbn [placeholders fst snd In];
      repeat split; try discriminate; auto.
Qed.

(** X17. A model call that raises anything other than an API error is not
    recovered: the second [except] clause cannot be evaluated, and the
    request is answered with HTTP 500. *)
Lemma enrichment_exception_escalates (files : request) (audio_file : upload)
    (r : pydict) (client : Client) (e : pyexn) :
  fingerprint_match files audio_file r ->
  gemini_client = Some client ->
  generate_content client "gemini-2.5-flash" (prompt_for r) = GenRaise e ->
  is_APIError e = false ->
  recognize_endpoint files
  = ([AuddPost audd_url audd_data (audd_files audio_file);
      GeminiGenerate "gemini-2.5-flash" (prompt_for r)],
     Ok (message_payload "error"
           ("後端未知錯誤：" ++ exn_str (UnboundLocalError "json")), 500%Z)).
Proof.
  intros Hmatch Hclient Hgen Hclass.
  rewrite (recognize_endpoint_match _ _ _ Hmatch).
  assert (Hgemini :
    get_song_info_from_gemini (dict_get r "title" PNone) (dict_get r "artist" PNone)
    = ([GeminiGenerate "gemini-2.5-flash" (prompt_for r)],
       Raise (UnboundLocalError "json"))).
  { rewrite (get_song_info_raise _ _ _ _ Hclient Hgen).
    unfold except_clauses. rewrite Hclass. reflexivity. }
  rewrite (on_match_raises _ _ _ Hgemini). reflexivity.
Qed.

(** *** The decision tree of the handler *)

Lemma recognize_except_shape (e : pyexn) :
  exists message,
    recognize_except e = ([], Ok (message_payload "error" message, 500%Z)).
Proof. destruct e; eexists; reflexivity. Qed.

Lemma raise_for_status_cases (url : string) (resp : Response) :
  (((status_code resp < 400)%Z \/ (600 <= status_code resp)%Z)
   /\ raise_for_status url resp = ret tt)
  \/ ((400 <= status_code resp < 600)%Z
      /\ exists text,
           raise_for_status url resp = raise (HTTPError (status_code resp) text)).
Proof.
  destruct (Z_lt_dec (status_code resp) 400) as [Hlow|Hlow].
  - left. split; [left; exact Hlow|].
    apply raise_for_status_passes. left. exact Hlow.
  - destruct (Z_le_dec 600 (status_code resp)) as [Hhigh|Hhigh].
    + left. split; [right; exact Hhigh|].
      apply raise_for_status_passes. right. exact Hhigh.
    + right. split; [lia|]. apply raise_for_status_raises. lia.
Qed.

Lemma on_match_not_record (r : pyval) :
  (forall d, r <> PDict d) ->
  on_match r = raise (no_attribute r "get").
Proof.
  intros Hr. destruct r; try reflexivity. exfalso. apply (Hr d). reflexivity.
Qed.

Lemma on_result_not_object (body : pyval) :
  (forall d, body <> PDict d) ->
  on_result body = raise (no_attribute body "get").
Proof.
  intros Hb. destruct body; try reflexivity. exfalso. apply (Hb d). reflexivity.
Qed.

Lemma on_result_error (result : pydict) :
  eq_str (dict_get result "status" PNone) "error" = true ->
  (exists message,
     on_result (PDict result) = ([], Ok (message_payload "fail" message, 200%Z)))
  \/ (exists e,
        on_result (PDict result) = ([], Raise e) /\ is_HTTPError e = false).
Proof.
  intros Hstatus.
  destruct (on_result (PDict result)) as [t res] eqn:Hrun.
  unfold on_result in Hrun. unfold py_get at 1 in Hrun.
  rewrite bind_ret, Hstatus in Hrun.
  unfold py_get at 1 in Hrun. rewrite bind_ret in Hrun.
  destruct (dict_get result "error" (PDict [])) as [| | | | | |info];
    try (right; cbn in Hrun; inversion Hrun; eexists; split; reflexivity).
  left. unfold py_get in Hrun. rewrite !bind_ret in Hrun.
  inversion Hrun. eexists. reflexivity.
Qed.

Lemma on_result_truthy (result : pydict) :
  eq_str (dict_get result "status" PNone) "error" = false ->
  truthy (dict_get result "result" PNone) = true ->
  on_result (PDict result) = on_match (dict_get result "result" PNone).
Proof.
  intros Hstatus Htruthy.
  unfold on_result. unfold py_get at 1. rewrite bind_ret, Hstatus.
  unfold py_get at 1. rewrite bind_ret, Htruthy. cbn [negb].
  unfold py_getitem, dict_get in *.
  destruct (dict_lookup result "result") as [r|]; [|discriminate Htruthy].
  rewrite bind_ret. reflexivity.
Qed.

Lemma non_empty_of_truthy (d : pydict) : truthy (PDict d) = true -> d <> [].
Proof. destruct d; [discriminate | discriminate]. Qed.

(** A request whose upload is obtained ends in one of three ways: an error
    response after the POST alone, a fail response after the POST alone,
    or the match branch. *)
Lemma recognize_endpoint_tree (files : request) (audio_file : upload) :
  files_lookup files "audio_file" = Some audio_file ->
  (exists message,
     recognize_endpoint files
     = ([AuddPost audd_url audd_data (audd_files audio_file)],
        Ok (message_payload "error" message, 500%Z)))
  \/ (exists message,
        recognize_endpoint files
        = ([AuddPost audd_url audd_data (audd_files audio_file)],
           Ok (message_payload "fail" message, 200%Z)))
  \/ (exists r, fingerprint_match files audio_file r).
Proof.
  intros Hfile.
  destruct (requests_post audd_url audd_data (audd_files audio_file))
    as [text|resp] eqn:Hpost.
  { left. rewrite (recognize_endpoint_uploaded _ _ Hfile). unfold recognize_try.
    rewrite bind_emit, Hpost. eexists. reflexivity. }
  destruct (raise_for_status_cases audd_url resp)
    as [[Hcode Hpass]|[Hcode [text Hraise]]].
  2:{ left. rewrite (recognize_endpoint_uploaded _ _ Hfile). unfold recognize_try.
      rewrite bind_emit, Hpost, Hraise. eexists. reflexivity. }
  destruct (json_body resp) as [text|body] eqn:Hbody.
  { left. rewrite (recognize_endpoint_uploaded _ _ Hfile).
    unfold recognize_try, response_json.
    rewrite bind_emit, Hpost, Hpass, bind_ret, Hbody.
    eexists. reflexivity. }
  assert (Hdec : decoded_body files audio_file body).
  { exists resp. repeat split; assumption. }
  assert (Hraise : forall e,
             on_result body = ([], Raise e) -> is_HTTPError e = false ->
             exists message,
               recognize_endpoint files
               = ([AuddPost audd_url audd_data (audd_files audio_file)],
                  Ok (message_payload "error" message, 500%Z))).
  { intros e He Hclass.
    rewrite (recognize_endpoint_uploaded _ _ Hfile),
      (recognize_try_decoded _ _ _ Hdec), He.
    cbn [fst snd]. rewrite try_except_raise.
    rewrite (recognize_except_unexpected e Hclass). eexists. reflexivity. }
  assert (Hobj : (exists result, body = PDict result) \/ (forall d, body <> PDict d)).
  { destruct body; try (right; intros d0; discriminate). left. eauto. }
  destruct Hobj as [[result ->]|Hobj].
  2:{ left. apply (Hraise (no_attribute body "get")); [|reflexivity].
      apply on_result_not_object. exact Hobj. }
  destruct (eq_str (dict_get result "status" PNone) "error") eqn:Hstatus.
  { destruct (on_result_error result Hstatus) as [[m Hm]|[e [He Hclass]]].
    - right. left. exists m.
      apply (recognize_endpoint_decoded _ _ _ _ _ Hdec Hm).
    - left. apply (Hraise e He Hclass). }
  destruct (truthy (dict_get result "result" PNone)) eqn:Htruthy.
  2:{ right. left. eexists.
      apply (recognize_endpoint_decoded _ _ _ _ _ Hdec).
      unfold on_result. unfold py_get at 1. rewrite bind_ret, Hstatus.
      unfold py_get at 1. rewrite bind_ret, Htruthy. reflexivity. }
  pose proof (on_result_truthy result Hstatus Htruthy) as Hres.
  assert (Hrec : (exists r, dict_get result "result" PNone = PDict r)
                 \/ (forall d, dict_get result "result" PNone <> PDict d)).
  { destruct (dict_get result "result" PNone);
      try (right; intros d0; discriminate). left. eauto. }
  destruct Hrec as [[r Hr]|Hrec].
  - right. right. exists r, resp, result.
    repeat split; try assumption.
    + unfold dict_get in Hr.
      destruct (dict_lookup result "result") as [v|]; [|discriminate Hr].
      rewrite Hr. reflexivity.
    + apply non_empty_of_truthy. rewrite <- Hr. exact Htruthy.
  - left. apply (Hraise (no_attribute (dict_get result "result" PNone) "get"));
      [|reflexivity].
    rewrite Hres. apply on_match_not_record. exact Hrec.
Qed.

(** *** The outbound calls of a run *)

Lemma decode_reply_trace (text : option string) : fst (decode_reply text) = [].
Proof.
  destruct text as [s|]; [|reflexivity].
  unfold decode_reply. destruct (Json.loads (clean s)); reflexivity.
Qed.

(** The trace of the enrichment call: nothing without a client, otherwise
    the model call followed by diagnostic prints only. *)
Lemma get_song_info_trace (title artist : pyval) :
  match gemini_client with
  | None => fst (get_song_info_from_gemini title artist) = []
  | Some _ =>
      exists prints,
        fst (get_song_info_from_gemini title artist)
        = GeminiGenerate "gemini-2.5-flash" (prompt title artist) :: prints
        /\ external_calls prints = []
  end.
Proof.
  unfold get_song_info_from_gemini.
  destruct gemini_client as [client|]; [|reflexivity].
  rewrite bind_emit. cbn [fst].
  destruct (generate_content client "gemini-2.5-flash" (prompt title artist))
    as [e|text].
  - eexists. split; [reflexivity|].
    unfold except_clauses. destruct (is_APIError e); reflexivity.
  - eexists. split; [reflexivity|].
    pose proof (decode_reply_trace text) as Ht.
    destruct (decode_reply text) as [t [v|e]]; cbn [fst] in Ht; subst t.
    + reflexivity.
    + rewrite try_except_raise. cbn [fst app]. unfold except_clauses.
      destruct (is_APIError e); [reflexivity|].
      destruct (is_JSONDecodeError e); reflexivity.
Qed.

Lemma on_match_trace (r : pydict) :
  fst (on_match (PDict r))
  = fst (get_song_info_from_gemini (dict_get r "title" PNone)
           (dict_get r "artist" PNone)).
Proof.
  destruct (get_song_info_from_gemini (dict_get r "title" PNone)
              (dict_get r "artist" PNone)) as [t [g|e]] eqn:Hgemini.
  - destruct (links_well_formed r) eqn:Hwf.
    + destruct (extract_links_ok r Hwf) as (links & Hlinks & _).
      assert (Hg : (exists d, g = PDict d) \/ (forall d, g <> PDict d)).
      { destruct g; try (right; intros d0; discriminate). left. eauto. }
      destruct Hg as [[d ->]|Hg].
      * rewrite (on_match_ok _ _ _ _ Hgemini Hlinks). reflexivity.
      * rewrite (on_match_not_object _ _ _ _ Hgemini Hlinks Hg). reflexivity.
    + destruct (extract_links_raises r Hwf) as (e & Hlinks & _).
      rewrite (on_match_links_raise _ _ _ _ Hgemini Hlinks). reflexivity.
  - rewrite (on_match_raises _ _ _ Hgemini). reflexivity.
Qed.

Lemma recognize_endpoint_match_trace (files : request) (audio_file : upload)
    (r : pydict) :
  fingerprint_match files audio_file r ->
  fst (recognize_endpoint files)
  = AuddPost audd_url audd_data (audd_files audio_file)
      :: fst (get_song_info_from_gemini (dict_get r "title" PNone)
                (dict_get r "artist" PNone)).
Proof.
  intros Hmatch. rewrite (recognize_endpoint_match _ _ _ Hmatch).
  rewrite <- on_match_trace.
  destruct (on_match (PDict r)) as [t [resp|e]]; cbn [fst snd].
  - reflexivity.
  - rewrite try_except_raise. cbn [fst].
    destruct (recognize_except_shape e) as [m Hm]. rewrite Hm.
    cbn [fst]. rewrite app_nil_r. reflexivity.
Qed.

(** X1. A run of the handler ends in one of five ways.  Either a statement
    before the [try] block raises, and the exception leaves the handler
    with nothing sent; or the request gets a response of one of four
    shapes: HTTP 400 with [status=error] and the missing-file message
    (exactly when the form is parsed and has no [audio_file]), HTTP 500 with
    [status=error] and a message, HTTP 200 with [status=fail] and a message,
    or HTTP 200 with the seven-field success payload. *)
Theorem X1_response_shape (files : request) :
  (exists e,
     raised_before_try files e /\ recognize_endpoint files = ([], Raise e))
  \/ (exists t resp kind,
        recognize_endpoint files = (t, Ok resp)
        /\ has_kind resp kind
        /\ (kind = MissingFile
            <-> exists fields,
                  request_files files = ([], Ok fields)
                  /\ field_lookup fields "audio_file" = None)).
Proof.
  destruct (before_try_cases files)
    as [(e & Hraise & _)|[(fields & Hreq & Hfield & _)|(audio_file & Hfile)]].
  - left. exists e. split; [exact Hraise|].
    apply recognize_endpoint_escape. exact Hraise.
  - right. rewrite (recognize_endpoint_no_field _ _ Hreq Hfield).
    eexists _, _, MissingFile. split; [reflexivity|].
    split; [reflexivity|]. split; [intros _; exists fields; auto | reflexivity].
  - right.
    assert (Hiff : forall k, k <> MissingFile ->
               (k = MissingFile
                <-> exists fields,
                      request_files files = ([], Ok fields)
                      /\ field_lookup fields "audio_file" = None)).
    { intros k Hk. split; [intros H; contradiction|].
      intros (fields & Hreq & Hfield). exfalso.
      unfold files_lookup in Hfile. rewrite Hreq in Hfile.
      cbn [snd] in Hfile. rewrite Hfield in Hfile. discriminate Hfile. }
    destruct (recognize_endpoint_tree files audio_file Hfile)
      as [[m Hm]|[[m Hm]|[r Hmatch]]].
    + eexists _, _, ServerError. split; [exact Hm|].
      split; [exists m; reflexivity | apply Hiff; discriminate].
    + eexists _, _, Fail. split; [exact Hm|].
      split; [exists m; reflexivity | apply Hiff; discriminate].
    + rewrite (recognize_endpoint_match _ _ _ Hmatch).
      destruct (on_match_cases r)
        as [(t & e & Hrun & Hclass)|(t & d & links & _ & Hrun)];
        rewrite Hrun; cbn [fst snd].
      * rewrite try_except_raise, (recognize_except_unexpected e Hclass).
        eexists _, _, ServerError. split; [reflexivity|].
        split; [eexists; reflexivity | apply Hiff; discriminate].
      * rewrite try_except_ok.
        eexists _, _, Success. split; [reflexivity|].
        split; [do 6 eexists; reflexivity | apply Hiff; discriminate].
Qed.

(** X2. The outbound calls of a run are, in order: none when the handler
    does not get past the statements before the [try] block (the form
    cannot be parsed, it has no [audio_file], or the file cannot be read);
    otherwise the one fingerprint POST (fixed URL, token
    and [return] list, the uploaded file's name, bytes and type), followed
    by at most one model call, with the model name [gemini-2.5-flash] and
    the prompt built from the match record.  No call is repeated. *)
Theorem X2_call_discipline (files : request) :
  let calls := external_calls (fst (recognize_endpoint files)) in
  match files_lookup files "audio_file" with
  | None => calls = []
  | Some audio_file =>
      calls = [AuddPost audd_url audd_data (audd_files audio_file)]
      \/ exists r,
           fingerprint_match files audio_file r
           /\ calls = [AuddPost audd_url audd_data (audd_files audio_file);
                       GeminiGenerate "gemini-2.5-flash" (prompt_for r)]
  end.
Proof.
  intros calls. subst calls.
  destruct (files_lookup files "audio_file") as [audio_file|] eqn:Hfile.
  - destruct (recognize_endpoint_tree files audio_file Hfile)
      as [[m Hm]|[[m Hm]|[r Hmatch]]].
    + left. rewrite Hm. reflexivity.
    + left. rewrite Hm. reflexivity.
    + rewrite (recognize_endpoint_match_trace _ _ _ Hmatch).
      pose proof (get_song_info_trace (dict_get r "title" PNone)
                    (dict_get r "artist" PNone)) as Htrace.
      destruct gemini_client as [client|].
      * destruct Htrace as (prints & Ht & Hprints).
        right. exists r. split; [exact Hmatch|].
        rewrite Ht. cbn [external_calls filter is_external_call].
        fold (external_calls prints). rewrite Hprints. reflexivity.
      * left. rewrite Htrace. reflexivity.
  - rewrite (not_uploaded_trace _ Hfile). reflexivity.
Qed.

(** X3. Without a client handle the model is never called, whatever the
    request and whatever the fingerprinting service answers. *)
Theorem X3_no_client_no_model_call (files : request) (model contents : string) :
  gemini_client = None ->
  ~ In (GeminiGenerate model contents) (fst (recognize_endpoint files)).
Proof.
  intros Hnone Hin.
  destruct (files_lookup files "audio_file") as [audio_file|] eqn:Hfile.
  - destruct (recognize_endpoint_tree files audio_file Hfile)
      as [[m Hm]|[[m Hm]|[r Hmatch]]].
    + rewrite Hm in Hin. cbn in Hin. destruct Hin as [H|[]]. discriminate H.
    + rewrite Hm in Hin. cbn in Hin. destruct Hin as [H|[]]. discriminate H.
    + rewrite (recognize_endpoint_match_trace _ _ _ Hmatch) in Hin.
      pose proof (get_song_info_trace (dict_get r "title" PNone)
                    (dict_get r "artist" PNone)) as Htrace.
      rewrite Hnone in Htrace. rewrite Htrace in Hin.
      cbn in Hin. destruct Hin as [H|[]]. discriminate H.
  - rewrite (not_uploaded_trace _ Hfile) in Hin. exact Hin.
Qed.

(** *** Failures before the match branch *)

Lemma recognize_endpoint_raised (files : request) (audio_file : upload)
    (body : pyval) (e : pyexn) :
  decoded_body files audio_file body ->
  on_result body = ([], Raise e) ->
  is_HTTPError e = false ->
  recognize_endpoint files
  = ([AuddPost audd_url audd_data (audd_files audio_file)],
     Ok (message_payload "error" ("後端未知錯誤：" ++ exn_str e), 500%Z)).
Proof.
  intros Hdec He Hclass. pose proof Hdec as (resp & Hfile & _).
  rewrite (recognize_endpoint_uploaded _ _ Hfile),
    (recognize_try_decoded _ _ _ Hdec), He.
  cbn [fst snd]. rewrite try_except_raise.
  rewrite (recognize_except_unexpected e Hclass). reflexivity.
Qed.

(** X4. When the fingerprinting body decodes to anything but an object (a
    list, a string, a number, a boolean, null), [result.get] raises and the
    request is answered with HTTP 500, [status=error], naming the type of
    the body; the model is not called. *)
Theorem X4_body_not_object (files : request) (audio_file : upload) (body : pyval) :
  decoded_body files audio_file body ->
  (forall d, body <> PDict d) ->
  recognize_endpoint files
  = ([AuddPost audd_url audd_data (audd_files audio_file)],
     Ok (message_payload "error"
           ("後端未知錯誤：'" ++ type_name body ++ "' object has no attribute 'get'"),
         500%Z)).
Proof.
  intros Hdec Hbody.
  rewrite (recognize_endpoint_raised files audio_file body
             (no_attribute body "get") Hdec);
    [reflexivity | apply on_result_not_object; exact Hbody | reflexivity].
Qed.

(** X5. When the POST itself raises (the service cannot be reached), or it
    returns without an HTTP error status but its body is not JSON, the
    request is answered with HTTP 500, [status=error], and the text of that
    exception; only the POST has been attempted. *)
Theorem X5_transport_failure (files : request) (audio_file : upload) (text : string) :
  files_lookup files "audio_file" = Some audio_file ->
  requests_post audd_url audd_data (audd_files audio_file) = PostRaise text
  \/ (exists resp,
        requests_post audd_url audd_data (audd_files audio_file) = PostReturn resp
        /\ ((status_code resp < 400)%Z \/ (600 <= status_code resp)%Z)
        /\ json_body resp = inl text) ->
  recognize_endpoint files
  = ([AuddPost audd_url audd_data (audd_files audio_file)],
     Ok (message_payload "error" ("後端未知錯誤：" ++ text), 500%Z)).
Proof.
  intros Hfile [Hpost|(resp & Hpost & Hcode & Hbody)];
    rewrite (recognize_endpoint_uploaded _ _ Hfile); unfold recognize_try;
    rewrite bind_emit, Hpost.
  - reflexivity.
  - rewrite (raise_for_status_passes _ _ Hcode), bind_ret.
    unfold response_json. rewrite Hbody. reflexivity.
Qed.

(** X6. When the body has no error marker and its [result] entry is truthy
    but not an object (a non-empty string or list, a non-zero number,
    [true]), [r.get] raises and the request is answered with HTTP 500,
    [status=error], naming the type of the entry; the model is not called. *)
Theorem X6_match_record_not_object (files : request) (audio_file : upload)
    (result : pydict) :
  decoded_body files audio_file (PDict result) ->
  eq_str (dict_get result "status" PNone) "error" = false ->
  truthy (dict_get result "result" PNone) = true ->
  (forall d, dict_get result "result" PNone <> PDict d) ->
  recognize_endpoint files
  = ([AuddPost audd_url audd_data (audd_files audio_file)],
     Ok (message_payload "error"
           ("後端未知錯誤：'" ++ type_name (dict_get result "result" PNone)
            ++ "' object has no attribute 'get'"), 500%Z)).
Proof.
  intros Hdec Hstatus Htruthy Hrec.
  rewrite (recognize_endpoint_raised files audio_file (PDict result)
             (no_attribute (dict_get result "result" PNone) "get") Hdec);
    [reflexivity | | reflexivity].
  rewrite (on_result_truthy result Hstatus Htruthy).
  apply on_match_not_record. exact Hrec.
Qed.

(** *** The enrichment call, continued *)

(** X7. Once the model call has returned, [get_song_info_from_gemini]
    never raises, whatever the reply: every exception of the lines after
    the call meets an [except] clause that returns a placeholder pair.  The
    model call is the only outbound call, what follows it in the trace are
    diagnostic prints; and a reply without text gives the unknown-error
    placeholders. *)
Theorem X7_reply_never_raises (client : Client) (title artist : pyval)
    (text : option string) :
  gemini_client = Some client ->
  generate_content client "gemini-2.5-flash" (prompt title artist) = GenReply text ->
  exists prints v,
    get_song_info_from_gemini title artist
    = (GeminiGenerate "gemini-2.5-flash" (prompt title artist) :: prints, Ok v)
    /\ external_calls prints = []
    /\ (text = None -> v = enrichment "未知錯誤。" "未知錯誤。").
Proof.
  intros Hclient Hgen.
  rewrite (get_song_info_reply _ _ _ _ Hclient Hgen).
  destruct text as [s|].
  - unfold decode_reply. destruct (Json.loads (clean s)) as [j|].
    + exists [], j. split; [reflexivity|]. split; [reflexivity | discriminate].
    + do 2 eexists. split; [reflexivity|].
      split; [reflexivity | discriminate].
  - do 2 eexists. split; [reflexivity|]. split; reflexivity.
Qed.

(** X8. On a fingerprint match with readable platform entries, a reply
    without text is recovered: the endpoint answers HTTP 200 with
    [status=success] and the unknown-error placeholder in both [lyrics] and
    [artist_info]. *)
Theorem X8_reply_without_text (files : request) (audio_file : upload)
    (r : pydict) (client : Client) :
  fingerprint_match files audio_file r ->
  links_well_formed r = true ->
  gemini_client = Some client ->
  generate_content client "gemini-2.5-flash" (prompt_for r) = GenReply None ->
  exists prints links,
    extract_links (PDict r) = ([], Ok links)
    /\ external_calls prints = []
    /\ recognize_endpoint files
       = (AuddPost audd_url audd_data (audd_files audio_file)
            :: GeminiGenerate "gemini-2.5-flash" (prompt_for r) :: prints,
          Ok (success_payload (dict_get r "title" PNone) (dict_get r "artist" PNone)
                (dict_get r "album" PNone) links
                (PStr "未知錯誤。") (PStr "未知錯誤。"), 200%Z)).
Proof.
  intros Hmatch Hwf Hclient Hgen.
  destruct (extract_links_ok r Hwf) as (links & Hlinks & _).
  assert (Hgemini :
    get_song_info_from_gemini (dict_get r "title" PNone) (dict_get r "artist" PNone)
    = ([GeminiGenerate "gemini-2.5-flash" (prompt_for r);
        Print ("Gemini 查詢未知錯誤: " ++ exn_str (no_attribute PNone "strip"))],
       Ok (PDict [("lyrics", PStr "未知錯誤。"); ("artist_info", PStr "未知錯誤。")]))).
  { rewrite (get_song_info_reply _ _ _ _ Hclient Hgen). reflexivity. }
  eexists _, links. split; [exact Hlinks|].
  rewrite (recognize_endpoint_success _ _ _ _ _ _ Hmatch Hgemini Hlinks).
  split; [|reflexivity]. reflexivity.
Qed.

(** X9. On a fingerprint match with readable platform entries, a reply
    whose cleaned text, of at most 4300 characters, is a JSON scalar (a
    string, a number, a boolean, null) or a list of scalars is not
    recovered: it is decoded and returned as it is, [gemini_data.get]
    raises, and the request is answered with HTTP 500, [status=error],
    naming the type of the reply.  (The bound on the length and the flat
    shape keep the reply within the interpreter's limits on integer
    literals and on nesting, where [json.loads] is [Json.loads].) *)
Theorem X9_reply_not_object (files : request) (audio_file : upload)
    (r : pydict) (client : Client) (text : string) (v : pyval) :
  fingerprint_match files audio_file r ->
  links_well_formed r = true ->
  gemini_client = Some client ->
  generate_content client "gemini-2.5-flash" (prompt_for r) = GenReply (Some text) ->
  String.length (clean text) <= int_max_str_digits ->
  Json.loads (clean text) = Some v ->
  is_flat v = true ->
  recognize_endpoint files
  = ([AuddPost audd_url audd_data (audd_files audio_file);
      GeminiGenerate "gemini-2.5-flash" (prompt_for r)],
     Ok (message_payload "error"
           ("後端未知錯誤：'" ++ type_name v ++ "' object has no attribute 'get'"),
         500%Z)).
Proof.
  intros Hmatch Hwf Hclient Hgen _ Hloads Hv.
  destruct (extract_links_ok r Hwf) as (links & Hlinks & _).
  pose proof (get_song_info_parsed client _ _ text v Hclient Hgen Hloads) as Hgemini.
  assert (Hobj : forall d, v <> PDict d).
  { intros d ->. discriminate Hv. }
  rewrite (recognize_endpoint_match _ _ _ Hmatch).
  rewrite (on_match_not_object _ _ _ _ Hgemini Hlinks Hobj). reflexivity.
Qed.

(** X10. A success response on a fingerprint match is determined by the
    record and the enrichment: [title], [artist] and [album] are the
    record's entries ([None] when missing), [links] are the extracted
    ones, and the enrichment call returned an object whose [lyrics] and
    [artist_info] entries (or the fallback texts) fill the last two
    fields. *)
Theorem X10_success_content (files : request) (audio_file : upload) (r : pydict)
    (t : list event) (title artist album : pyval) (links : pydict)
    (lyrics artist_info : pyval) :
  fingerprint_match files audio_file r ->
  recognize_endpoint files
  = (t, Ok (success_payload title artist album links lyrics artist_info, 200%Z)) ->
  title = dict_get r "title" PNone
  /\ artist = dict_get r "artist" PNone
  /\ album = dict_get r "album" PNone
  /\ extract_links (PDict r) = ([], Ok links)
  /\ exists t' d,
       get_song_info_from_gemini (dict_get r "title" PNone)
         (dict_get r "artist" PNone) = (t', Ok (PDict d))
       /\ t = AuddPost audd_url audd_data (audd_files audio_file) :: t'
       /\ lyrics = dict_get d "lyrics" (PStr "未能獲取歌詞。")
       /\ artist_info = dict_get d "artist_info" (PStr "未能獲取歌手簡介。").
Proof.
  intros Hmatch. rewrite (recognize_endpoint_match _ _ _ Hmatch).
  destruct (get_song_info_from_gemini (dict_get r "title" PNone)
              (dict_get r "artist" PNone)) as [t' [g|e]] eqn:Hgemini.
  - destruct (links_well_formed r) eqn:Hwf.
    + destruct (extract_links_ok r Hwf) as (links0 & Hlinks & _).
      assert (Hg : (exists d, g = PDict d) \/ (forall d, g <> PDict d)).
      { destruct g; try (right; intros d0; discriminate). left. eauto. }
      destruct Hg as [[d ->]|Hg].
      * rewrite (on_match_ok _ _ _ _ Hgemini Hlinks). cbn [fst snd].
        rewrite try_except_ok. intros H. inversion H. subst.
        repeat split; try reflexivity; try exact Hlinks.
        exists t', d. repeat split.
      * rewrite (on_match_not_object _ _ _ _ Hgemini Hlinks Hg).
        cbn [fst snd]. rewrite try_except_raise. cbn. intros H. inversion H.
    + destruct (extract_links_raises r Hwf) as (e & Hlinks & Hclass).
      rewrite (on_match_links_raise _ _ _ _ Hgemini Hlinks).
      cbn [fst snd]. rewrite try_except_raise.
      rewrite (recognize_except_unexpected e Hclass). cbn. intros H. inversion H.
  - rewrite (on_match_raises _ _ _ Hgemini).
    cbn [fst snd]. rewrite try_except_raise.
    rewrite (get_song_info_escape _ _ _ _ Hgemini). cbn. intros H. inversion H.
Qed.

(** *** The link table *)

(** X11. On a match record whose present platform entries carry their URL,
    [links] is exactly the table with one pair per present platform, in the
    order Spotify, YouTube Music, Apple Music, Deezer; no key occurs twice;
    and the value stored under a platform's name is the URL read below that
    platform's entry (for Spotify, [r['spotify']['external_urls']['spotify']]). *)
Theorem X11_link_table (r : pydict) :
  links_well_formed r = true ->
  extract_links (PDict r) = ([], Ok (link_table r))
  /\ NoDup (map fst (link_table r))
  /\ (forall name field path url,
        In (name, field, path) platforms ->
        field_present r field = true ->
        snd (py_getpath (dict_get r field PNone) path) = Ok url ->
        dict_lookup (link_table r) name = Some url).
Proof.
  intros Hwf. split; [apply extract_links_table; exact Hwf|].
  split; [apply link_table_keys|].
  intros name field path url. apply link_table_value.
Qed.

(** *** The prompt and the start-up *)

(** X12. The prompt names the song and the artist between double quotes,
    the artist twice; a record without [title] is asked about as the song
    called [None]. *)
Theorem X12_prompt_embeds (title artist : pyval) :
  contains (prompt title artist) ("歌曲名稱: " ++ q (py_str title))
  /\ contains (prompt title artist) ("歌手: " ++ q (py_str artist))
  /\ contains (prompt title artist) ("簡要介紹歌手 " ++ q (py_str artist))
  /\ (forall r, dict_lookup r "title" = None ->
                contains (prompt_for r) ("歌曲名稱: " ++ q "None")).
Proof.
  assert (Htitle : forall t a,
             contains (prompt t a) ("歌曲名稱: " ++ q (py_str t))).
  { intros t a. exists (nl ++ "    請針對這首歌：" ++ nl ++ "    "). eexists.
    unfold prompt, q. rewrite !append_assoc. reflexivity. }
  split; [apply Htitle|]. split; [|split].
  - exists (nl ++ "    請針對這首歌：" ++ nl ++ "    歌曲名稱: "
              ++ q (py_str title) ++ nl ++ "    ").
    eexists. unfold prompt, q. rewrite !append_assoc. reflexivity.
  - exists (nl ++ "    請針對這首歌：" ++ nl ++ "    歌曲名稱: "
              ++ q (py_str title) ++ nl ++ "    歌手: " ++ q (py_str artist) ++ nl
              ++ "    " ++ nl ++ "    執行以下兩個任務：" ++ nl
              ++ "    1. **歌詞 (Lyrics)**: 提供這首歌的完整歌詞。如果無法提供完整歌詞，請提供至少兩段，並註明「部分歌詞」。"
              ++ nl ++ "    2. **歌手簡介 (Artist Info)**: ").
    eexists. unfold prompt, q. rewrite !append_assoc. reflexivity.
  - intros r Hr. unfold prompt_for.
    pose proof (Htitle (dict_get r "title" PNone) (dict_get r "artist" PNone)) as H.
    unfold dict_get at 3 in H. rewrite Hr in H. exact H.
Qed.

(** X13. At start-up the client handle is the constructed client whenever
    the constructor returns one, also when the key is missing, and [None]
    exactly when the constructor raises; the missing-key warning is printed
    exactly when the key is absent or empty. *)
Theorem X13_client_handle_at_startup (key : option string)
    (construct : option string -> pyexn + Client) :
  snd (init_gemini_client key construct)
  = Ok (match construct key with inr client => Some client | inl _ => None end)
  /\ (In (Print "⚠️ 錯誤：未在 .env 檔案中找到 GEMINI_API_KEY，將無法使用 AI 查詢歌詞。")
        (fst (init_gemini_client key construct))
      <-> key = None \/ key = Some EmptyString).
Proof.
  unfold init_gemini_client.
  destruct (construct key) as [e|client]; destruct key as [[|c k]|];
    (split; [reflexivity|]); cbn; split;
    try (intros _; auto; fail);
    try (intros [H|H]; discriminate H);
    intros H; repeat (destruct H as [H|H]; try discriminate H); try contradiction.
Qed.

(** *** The clean-up of the reply *)

Lemma length_app (a b : string) :
  String.length (a ++ b) = String.length a + String.length b.
Proof. induction a as [|x a IH]; simpl; [reflexivity | now rewrite IH]. Qed.

Lemma rev_string_onto_app (s acc : string) :
  rev_string_onto s acc = rev_string s ++ acc.
Proof.
  unfold rev_string. revert acc.
  induction s as [|x s IH]; intros acc; simpl; [reflexivity|].
  rewrite IH, (IH (String x EmptyString)), append_assoc. reflexivity.
Qed.

Lemma rev_string_cons (x : ascii) (s : string) :
  rev_string (String x s) = rev_string s ++ String x EmptyString.
Proof. unfold rev_string at 1. simpl. apply rev_string_onto_app. Qed.

Lemma rev_string_app (a b : string) :
  rev_string (a ++ b) = rev_string b ++ rev_string a.
Proof.
  induction a as [|x a IH]; simpl.
  - now rewrite append_empty_r.
  - rewrite !rev_string_cons, IH, append_assoc. reflexivity.
Qed.

Lemma rev_string_involutive (s : string) : rev_string (rev_string s) = s.
Proof.
  induction s as [|x s IH]; [reflexivity|].
  rewrite rev_string_cons, rev_string_app, IH. reflexivity.
Qed.

Lemma all_chars_app (p : ascii -> bool) (a b : string) :
  all_chars p (a ++ b) = all_chars p a && all_chars p b.
Proof.
  induction a as [|x a IH]; simpl; [reflexivity|].
  rewrite IH, andb_assoc. reflexivity.
Qed.

Lemma all_chars_rev (p : ascii -> bool) (s : string) :
  all_chars p (rev_string s) = all_chars p s.
Proof.
  induction s as [|x s IH]; [reflexivity|].
  rewrite rev_string_cons, all_chars_app, IH. simpl.
  rewrite andb_true_r, andb_comm. reflexivity.
Qed.

Lemma drop_prefix_length (p s rest : string) :
  drop_prefix p s = Some rest ->
  String.length s = String.length p + String.length rest.
Proof.
  revert s. induction p as [|a p IH]; intros s; simpl.
  - intros H. inversion H. reflexivity.
  - destruct s as [|b s]; [discriminate|].
    destruct (Ascii.eqb a b); [|discriminate].
    intros H. simpl. rewrite (IH _ H). reflexivity.
Qed.

Lemma drop_prefix_app (p s rest : string) :
  drop_prefix p s = Some rest -> s = p ++ rest.
Proof.
  revert s. induction p as [|a p IH]; intros s; simpl.
  - intros H. inversion H. reflexivity.
  - destruct s as [|b s]; [discriminate|].
    destruct (Ascii.eqb_spec a b) as [->|_]; [|discriminate].
    intros H. rewrite (IH _ H). reflexivity.
Qed.

Lemma drop_any_prefix_app (pats : list string) (s rest : string) :
  drop_any_prefix pats s = Some rest ->
  exists p, In p pats /\ s = p ++ rest.
Proof.
  induction pats as [|p pats IH]; simpl; [discriminate|].
  destruct (drop_prefix p s) as [r|] eqn:Hp.
  - intros H. inversion H. subst r. exists p. split; [left; reflexivity|].
    apply drop_prefix_app. exact Hp.
  - intros H. destruct (IH H) as (p' & Hin & Hs). exists p'. auto.
Qed.

Lemma lstrip_pats_stop (fuel : nat) (pats : list string) (s : string) :
  drop_any_prefix pats s = None -> lstrip_pats fuel pats s = s.
Proof. intros H. destruct fuel; simpl; [|rewrite H]; reflexivity. Qed.

(** Stripping ends where no pattern matches any more. *)
Lemma lstrip_pats_done (pats : list string) :
  (forall p, In p pats -> p <> EmptyString) ->
  forall fuel s,
    String.length s <= fuel ->
    drop_any_prefix pats (lstrip_pats fuel pats s) = None.
Proof.
  intros Hpats. induction fuel as [|fuel IH]; intros s Hlen.
  - destruct s; [|simpl in Hlen; lia]. simpl.
    destruct (drop_any_prefix pats EmptyString) as [rest|] eqn:Hd; [|reflexivity].
    destruct (drop_any_prefix_app _ _ _ Hd) as (p & Hin & Hs).
    destruct p; [exfalso; apply (Hpats _ Hin); reflexivity | discriminate Hs].
  - simpl. destruct (drop_any_prefix pats s) as [rest|] eqn:Hd; [|exact Hd].
    apply IH. destruct (drop_any_prefix_app _ _ _ Hd) as (p & Hin & Hs).
    subst s. rewrite length_app in Hlen.
    destruct p; [exfalso; apply (Hpats _ Hin); reflexivity|].
    simpl in Hlen. lia.
Qed.

(** What is stripped is a prefix. *)
Lemma lstrip_pats_suffix (pats : list string) (fuel : nat) :
  forall s, exists pre, s = pre ++ lstrip_pats fuel pats s.
Proof.
  induction fuel as [|fuel IH]; intros s; simpl.
  - exists EmptyString. reflexivity.
  - destruct (drop_any_prefix pats s) as [rest|] eqn:Hd.
    + destruct (drop_any_prefix_app _ _ _ Hd) as (p & _ & Hs).
      destruct (IH rest) as (pre & Hrest).
      exists (p ++ pre). rewrite append_assoc, <- Hrest. exact Hs.
    + exists EmptyString. reflexivity.
Qed.

(** A run of characters that the patterns remove one by one. *)
Lemma lstrip_pats_run (pats : list string) (p : ascii -> bool) :
  (forall x s, p x = true -> drop_any_prefix pats (String x s) = Some s) ->
  forall run rest fuel,
    all_chars p run = true ->
    String.length run <= fuel ->
    lstrip_pats fuel pats (run ++ rest)
    = lstrip_pats (fuel - String.length run) pats rest.
Proof.
  intros Hp. induction run as [|x run IH]; intros rest fuel Hall Hlen.
  - simpl. rewrite Nat.sub_0_r. reflexivity.
  - simpl in Hall. apply andb_true_iff in Hall. destruct Hall as [Hx Hall].
    destruct fuel as [|fuel]; [simpl in Hlen; lia|].
    simpl. rewrite (Hp x _ Hx). apply IH; [exact Hall | simpl in Hlen; lia].
Qed.

Lemma fence_char_cases (x : ascii) :
  is_fence_char x = true ->
  x = "`"%char \/ x = "j"%char \/ x = "s"%char \/ x = "o"%char \/ x = "n"%char.
Proof.
  unfold is_fence_char. cbn [existsb].
  destruct (Ascii.eqb_spec x "`"); [auto|].
  destruct (Ascii.eqb_spec x "j"); [auto|].
  destruct (Ascii.eqb_spec x "s"); [auto|].
  destruct (Ascii.eqb_spec x "o"); [auto 6|].
  destruct (Ascii.eqb_spec x "n"); [auto 6|].
  discriminate.
Qed.

Lemma ws_char_cases (x : ascii) :
  Json.is_ws x = true ->
  x = " "%char \/ x = "009"%char \/ x = "010"%char \/ x = "013"%char.
Proof.
  unfold Json.is_ws.
  destruct (Ascii.eqb_spec x " "); [auto|].
  destruct (Ascii.eqb_spec x "009"); [auto|].
  destruct (Ascii.eqb_spec x "010"); [auto|].
  destruct (Ascii.eqb_spec x "013"); [auto 6|].
  discriminate.
Qed.

Lemma fence_char_dropped (x : ascii) (s : string) :
  is_fence_char x = true ->
  drop_any_prefix (chars_of "```json") (String x s) = Some s.
Proof.
  intros H. destruct (fence_char_cases x H) as [->|[->|[->|[->| ->]]]];
    reflexivity.
Qed.

Lemma fence_char_kept (x : ascii) (s : string) :
  is_fence_char x = false ->
  drop_any_prefix (chars_of "```json") (String x s) = None.
Proof.
  intros H.
  destruct (drop_any_prefix (chars_of "```json") (String x s)) as [rest|] eqn:Hd;
    [|reflexivity].
  destruct (drop_any_prefix_app _ _ _ Hd) as (p & Hin & Hs).
  cbn [chars_of In] in Hin.
  repeat (destruct Hin as [<-|Hin];
          [inversion Hs; subst x; vm_compute in H; discriminate H|]).
  contradiction.
Qed.

Lemma backtick_dropped (x : ascii) (s : string) :
  is_backtick x = true ->
  drop_any_prefix (map rev_string (chars_of "```")) (String x s) = Some s.
Proof.
  unfold is_backtick. intros H. apply Ascii.eqb_eq in H. subst x. reflexivity.
Qed.

Lemma backtick_kept (x : ascii) (s : string) :
  is_backtick x = false ->
  drop_any_prefix (map rev_string (chars_of "```")) (String x s) = None.
Proof.
  intros H.
  destruct (drop_any_prefix (map rev_string (chars_of "```")) (String x s))
    as [rest|] eqn:Hd; [|reflexivity].
  destruct (drop_any_prefix_app _ _ _ Hd) as (p & Hin & Hs).
  cbn in Hin.
  repeat (destruct Hin as [<-|Hin];
          [inversion Hs; subst x; vm_compute in H; discriminate H|]).
  contradiction.
Qed.

(** A white-space pattern at the head is removed whole. *)
Lemma whitespace_dropped (p rest : string) :
  In p whitespace ->
  drop_any_prefix whitespace (p ++ rest) = Some rest.
Proof.
  intros Hin. vm_compute in Hin.
  repeat (destruct Hin as [<-|Hin]; [reflexivity|]).
  contradiction.
Qed.

Lemma whitespace_non_empty (p : string) : In p whitespace -> p <> EmptyString.
Proof.
  intros Hin. vm_compute in Hin.
  repeat (destruct Hin as [<-|Hin]; [discriminate|]).
  contradiction.
Qed.

(** No white-space pattern starts with a fence character or a brace, and
    none ends with a backtick or a brace. *)
Lemma whitespace_kept (x : ascii) (s : string) :
  is_fence_char x = true \/ x = "{"%char ->
  drop_any_prefix whitespace (String x s) = None.
Proof.
  intros Hx.
  destruct (drop_any_prefix whitespace (String x s)) as [rest|] eqn:Hd;
    [|reflexivity].
  destruct (drop_any_prefix_app _ _ _ Hd) as (p & Hin & Hs).
  vm_compute in Hin.
  repeat (destruct Hin as [<-|Hin];
          [inversion Hs; subst x; destruct Hx as [Hx|Hx];
           [vm_compute in Hx; discriminate Hx | discriminate Hx]|]).
  contradiction.
Qed.

Lemma whitespace_rev_kept (x : ascii) (s : string) :
  is_backtick x = true \/ x = "}"%char ->
  drop_any_prefix (map rev_string whitespace) (String x s) = None.
Proof.
  intros Hx.
  destruct (drop_any_prefix (map rev_string whitespace) (String x s))
    as [rest|] eqn:Hd; [|reflexivity].
  destruct (drop_any_prefix_app _ _ _ Hd) as (p & Hin & Hs).
  vm_compute in Hin.
  repeat (destruct Hin as [<-|Hin];
          [inversion Hs; subst x; destruct Hx as [Hx|Hx];
           [vm_compute in Hx; discriminate Hx | discriminate Hx]|]).
  contradiction.
Qed.

(** The first character of a run followed by [y]. *)
Lemma head_of_run (p : ascii -> bool) (run : string) (y : ascii) (rest : string) :
  all_chars p run = true ->
  exists x s, run ++ String y rest = String x s /\ (p x = true \/ x = y).
Proof.
  intros Hall. destruct run as [|x run]; simpl.
  - exists y, rest. auto.
  - simpl in Hall. apply andb_true_iff in Hall. destruct Hall as [Hx _].
    exists x, (run ++ String y rest). auto.
Qed.

Lemma ws_not_fence (x : ascii) :
  Json.is_ws x = true \/ x = "{"%char -> is_fence_char x = false.
Proof.
  intros [H| ->]; [|reflexivity].
  destruct (ws_char_cases x H) as [->|[->|[->| ->]]]; reflexivity.
Qed.

Lemma ws_not_backtick (x : ascii) :
  Json.is_ws x = true \/ x = "}"%char -> is_backtick x = false.
Proof.
  intros [H| ->]; [|reflexivity].
  destruct (ws_char_cases x H) as [->|[->|[->| ->]]]; reflexivity.
Qed.

Lemma strip_unchanged (text : string) :
  drop_any_prefix whitespace text = None ->
  drop_any_prefix (map rev_string whitespace) (rev_string text) = None ->
  strip text = text.
Proof.
  intros Hl Hr. unfold strip, rstrip_set, lstrip_set.
  rewrite (lstrip_pats_stop _ _ _ Hl), (lstrip_pats_stop _ _ _ Hr).
  apply rev_string_involutive.
Qed.

(** The clean-up of a text made of an opening run of fence characters, a
    middle part and a closing run of backticks. *)
Lemma clean_between (o c mid : string) :
  all_chars is_fence_char o = true ->
  all_chars is_backtick c = true ->
  drop_any_prefix whitespace (o ++ mid ++ c) = None ->
  drop_any_prefix (map rev_string whitespace) (rev_string (o ++ mid ++ c)) = None ->
  drop_any_prefix (chars_of "```json") (mid ++ c) = None ->
  drop_any_prefix (map rev_string (chars_of "```")) (rev_string mid) = None ->
  clean (o ++ mid ++ c) = mid.
Proof.
  intros Ho Hc Hl Hr Hmid Hrmid.
  unfold clean. rewrite (strip_unchanged _ Hl Hr).
  unfold lstrip, lstrip_set.
  rewrite (lstrip_pats_run _ is_fence_char fence_char_dropped o (mid ++ c) _ Ho);
    [|rewrite length_app; lia].
  rewrite (lstrip_pats_stop _ _ _ Hmid).
  unfold rstrip, rstrip_set, lstrip_set.
  rewrite rev_string_app.
  rewrite (lstrip_pats_run _ is_backtick backtick_dropped (rev_string c)
             (rev_string mid));
    [|rewrite all_chars_rev; exact Hc | rewrite length_app; lia].
  rewrite (lstrip_pats_stop _ _ _ Hrmid).
  apply rev_string_involutive.
Qed.

(** X14. The clean-up removes the fence and nothing else from a fenced
    object: for a reply made of a run of the characters of [```json], white
    space, an object text from its opening to its closing brace, white
    space, and a run of backticks, the cleaned text is the object with the
    white space around it.  Either run may be empty when no white space
    separates it from the object, so an unfenced object is left as it is. *)
Theorem X14_fence_removed (o c w w' inner : string) :
  all_chars is_fence_char o = true ->
  all_chars is_backtick c = true ->
  all_chars Json.is_ws w = true ->
  all_chars Json.is_ws w' = true ->
  (o = EmptyString -> w = EmptyString) ->
  (c = EmptyString -> w' = EmptyString) ->
  clean (o ++ (w ++ "{" ++ inner ++ "}" ++ w') ++ c)
  = w ++ "{" ++ inner ++ "}" ++ w'.
Proof.
  intros Ho Hc Hw Hw' How Hcw.
  (* the first character of the middle part and of its reverse *)
  destruct (head_of_run Json.is_ws w "{" (inner ++ "}" ++ w') Hw)
    as (x & s & Hhead & Hx).
  assert (Hrev : rev_string (w ++ "{" ++ inner ++ "}" ++ w')
                 = rev_string w' ++ String "}" (rev_string inner ++ "{" ++ rev_string w)).
  { rewrite !rev_string_app. cbn [rev_string rev_string_onto].
    rewrite !append_assoc. reflexivity. }
  assert (Hw'r : all_chars Json.is_ws (rev_string w') = true)
    by (rewrite all_chars_rev; exact Hw').
  destruct (head_of_run Json.is_ws (rev_string w') "}"
              (rev_string inner ++ "{" ++ rev_string w) Hw'r)
    as (y & s' & Hrhead & Hy).
  apply clean_between; try assumption.
  - (* no white space in front *)
    destruct o as [|a o].
    + rewrite (How eq_refl). cbn [append].
      apply whitespace_kept. right. reflexivity.
    + cbn [append]. apply whitespace_kept. left.
      simpl in Ho. apply andb_true_iff in Ho. apply Ho.
  - (* no white space behind *)
    rewrite !rev_string_app.
    destruct c as [|b c].
    + rewrite (Hcw eq_refl). cbn [rev_string rev_string_onto append].
      apply whitespace_rev_kept. right. reflexivity.
    + assert (Hrc : all_chars is_backtick (rev_string (String b c)) = true)
        by (rewrite all_chars_rev; exact Hc).
      destruct (rev_string (String b c)) as [|z rc] eqn:Hz.
      * apply (f_equal rev_string) in Hz.
        rewrite rev_string_involutive in Hz. discriminate Hz.
      * cbn [append]. apply whitespace_rev_kept. left.
        simpl in Hrc. apply andb_true_iff in Hrc. apply Hrc.
  - (* the fence run ends at the middle part *)
    rewrite append_assoc.
    change ("{" ++ inner ++ "}" ++ w') with (String "{" (inner ++ "}" ++ w')).
    rewrite <- append_assoc, Hhead. cbn [append].
    apply fence_char_kept. apply ws_not_fence. exact Hx.
  - (* the backtick run ends at the middle part *)
    rewrite Hrev, Hrhead.
    apply backtick_kept. apply ws_not_backtick. exact Hy.
Qed.

Lemma blank_length (l : list string) :
  Forall (fun p => In p whitespace) l ->
  List.length l <= String.length (fold_right append EmptyString l).
Proof.
  induction 1 as [|p l Hp _ IH]; simpl; [lia|].
  rewrite length_app.
  pose proof (whitespace_non_empty p Hp) as Hne.
  destruct p; [contradiction|]. simpl. lia.
Qed.

Lemma lstrip_blank (l : list string) :
  Forall (fun p => In p whitespace) l ->
  forall fuel,
    List.length l <= fuel ->
    lstrip_pats fuel whitespace (fold_right append EmptyString l) = EmptyString.
Proof.
  induction 1 as [|p l Hp _ IH]; intros fuel Hlen.
  - destruct fuel; reflexivity.
  - destruct fuel as [|fuel]; [simpl in Hlen; lia|].
    cbn [fold_right lstrip_pats]. rewrite (whitespace_dropped p _ Hp).
    apply IH. simpl in Hlen. lia.
Qed.

Lemma clean_blank (l : list string) :
  Forall (fun p => In p whitespace) l ->
  clean (fold_right append EmptyString l) = EmptyString.
Proof.
  intros Hl. unfold clean, strip. unfold lstrip_set at 1.
  rewrite (lstrip_blank l Hl _ (blank_length l Hl)). reflexivity.
Qed.

(** X15. An empty reply, or one made only of white space (any characters
    that [str.strip] removes, the Unicode ones included), is cleaned to the
    empty text, which is not JSON: the enrichment is the format-error
    placeholder pair, and the diagnostic print quotes the reply. *)
Theorem X15_blank_reply (client : Client) (title artist : pyval) (l : list string) :
  gemini_client = Some client ->
  Forall (fun p => In p whitespace) l ->
  generate_content client "gemini-2.5-flash" (prompt title artist)
    = GenReply (Some (fold_right append EmptyString l)) ->
  clean (fold_right append EmptyString l) = EmptyString
  /\ get_song_info_from_gemini title artist
     = ([GeminiGenerate "gemini-2.5-flash" (prompt title artist);
         Print ("無法解析 Gemini 回傳的 JSON：" ++ fold_right append EmptyString l)],
        Ok (enrichment "AI 回傳格式錯誤。" "AI 回傳格式錯誤。")).
Proof.
  intros Hclient Hl Hgen. split; [apply clean_blank; exact Hl|].
  rewrite (get_song_info_reply _ _ _ _ Hclient Hgen).
  unfold decode_reply. rewrite (clean_blank l Hl). reflexivity.
Qed.

Lemma fence_patterns_non_empty (p : string) :
  In p (chars_of "```json") -> p <> EmptyString.
Proof.
  cbn. intros Hin.
  repeat (destruct Hin as [<-|Hin]; [discriminate|]). contradiction.
Qed.

Lemma backtick_patterns_non_empty (p : string) :
  In p (map rev_string (chars_of "```")) -> p <> EmptyString.
Proof.
  cbn. intros Hin.
  repeat (destruct Hin as [<-|Hin]; [discriminate|]). contradiction.
Qed.

(** X16. Whatever the reply, the cleaned text never begins with one of the
    characters [`], [j], [s], [o], [n] and never ends with a backtick:
    [lstrip] and [rstrip] remove characters of a set, not the word
    [```json]. *)
Theorem X16_clean_boundaries (text : string) :
  (forall x rest, clean text = String x rest -> is_fence_char x = false)
  /\ (forall s, clean text <> s ++ "`").
Proof.
  unfold clean, rstrip, rstrip_set.
  set (y := lstrip (strip text) "```json").
  assert (Hy : drop_any_prefix (chars_of "```json") y = None).
  { subst y. unfold lstrip, lstrip_set.
    apply (lstrip_pats_done _ fence_patterns_non_empty). apply le_n. }
  assert (Hz : drop_any_prefix (map rev_string (chars_of "```"))
                 (lstrip_set (map rev_string (chars_of "```")) (rev_string y))
               = None).
  { unfold lstrip_set.
    apply (lstrip_pats_done _ backtick_patterns_non_empty). apply le_n. }
  split.
  - intros x rest Hclean.
    destruct (lstrip_pats_suffix (map rev_string (chars_of "```"))
                (String.length (rev_string y)) (rev_string y)) as (pre & Hpre).
    fold (lstrip_set (map rev_string (chars_of "```")) (rev_string y)) in Hpre.
    apply (f_equal rev_string) in Hpre.
    rewrite rev_string_involutive, rev_string_app, Hclean in Hpre.
    rewrite Hpre in Hy. cbn [append] in Hy.
    destruct (is_fence_char x) eqn:Hx; [|reflexivity].
    rewrite (fence_char_dropped x _ Hx) in Hy. discriminate Hy.
  - intros s Hclean.
    apply (f_equal rev_string) in Hclean.
    rewrite rev_string_involutive, rev_string_app in Hclean.
    cbn [rev_string rev_string_onto append] in Hclean.
    rewrite Hclean in Hz.
    rewrite (backtick_dropped "`" _ eq_refl) in Hz. discriminate Hz.
Qed.

(** *** The limit on the parts of a form *)


End App.

(** ** Runs on the sample inputs *)

Local Notation "'run' client post files" :=
  (recognize_endpoint sample_repr sample_key client post files)
  (at level 10, client at level 9, post at level 9, files at level 9).

Local Notation "'posted'" :=
  (AuddPost audd_url (audd_data sample_key) (audd_files sample_upload)).

Local Notation "'asked' r" :=
  (GeminiGenerate "gemini-2.5-flash" (prompt_for sample_repr r))
  (at level 10, r at level 9).

Lemma sample_decoded (body : pyval) :
  decoded_body sample_key (post_returns 200 (inr body)) sample_files
    sample_upload body.
Proof.
  exists (MkResponse 200 "OK" (inr body)).
  repeat split. left. reflexivity.
Defined.

Lemma sample_match (r : pydict) :
  r <> [] ->
  fingerprint_match sample_key (post_returns 200 (matched r)) sample_files
    sample_upload r.
Proof.
  intros Hne.
  exists (MkResponse 200 "OK" (matched r)),
    [("status", PStr "success"); ("result", PDict r)].
  repeat split; try exact Hne. left. reflexivity.
Defined.

Lemma C8_missing_audio_file_witness :
  request_files (form_of [("file", sample_upload)])
  = ([], Ok [("file", MkStorage "clip.mp3" (inr "ID3") "audio/mpeg")])
  /\ field_lookup [("file", MkStorage "clip.mp3" (inr "ID3") "audio/mpeg")]
       "audio_file" = None
  /\ run None (post_raises "unused") (form_of [("file", sample_upload)])
     = ([], Ok (message_payload "error" "未找到音訊檔案。", 400%Z)).
Proof.
  split; [reflexivity|]. split; [reflexivity|].
  apply (C8_missing_audio_file sample_repr sample_key None (post_raises "unused")
           (form_of [("file", sample_upload)])
           [("file", MkStorage "clip.mp3" (inr "ID3") "audio/mpeg")]).
  - reflexivity.
  - reflexivity.
Defined.

(** A form of 1001 plain fields holds no [audio_file], and is not answered
    with HTTP 400: evaluating [request.files] raises, and the exception
    leaves the handler. *)
Lemma C8_counterexample :
  length (parts crowded_form) = 1001
  /\ field_lookup (file_parts (parts crowded_form)) "audio_file" = None
  /\ run None (post_raises "unused") crowded_form
     = ([], Raise RequestEntityTooLarge).
Proof. repeat split; vm_compute; reflexivity. Qed.

Lemma C7_upstream_http_error_witness :
  run None (post_returns 404 (inl "Expecting value")) sample_files
  = ([posted], Ok (message_payload "error" "HTTP 連線錯誤：404", 500%Z)).
Proof.
  apply (C7_upstream_http_error sample_repr sample_key None
           (post_returns 404 (inl "Expecting value")) sample_files sample_upload
           (MkResponse 404 "OK" (inl "Expecting value"))).
  - reflexivity.
  - reflexivity.
  - simpl. lia.
Defined.

Lemma C2_unexpected_exception_reported_witness :
  run None (post_raises "Connection refused") sample_files
  = ([posted], Ok (message_payload "error" "後端未知錯誤：Connection refused", 500%Z)).
Proof.
  apply (proj1 (C2_unexpected_exception_reported sample_repr sample_key None
                  (post_raises "Connection refused") sample_files)
           sample_upload [posted] (OtherException "Connection refused"));
    reflexivity.
Defined.

(** A form whose [audio_file] is its part 1001: evaluating [request.files]
    raises before the [try] block is entered, and the exception leaves the
    handler instead of being reported with HTTP 500. *)
Lemma C2_counterexample :
  field_lookup (file_parts (parts late_upload)) "audio_file"
  = Some (MkStorage "clip.mp3" (inr "ID3") "audio/mpeg")
  /\ request_files late_upload = ([], Raise RequestEntityTooLarge)
  /\ run None (post_returns 200 (matched sample_record)) late_upload
     = ([], Raise RequestEntityTooLarge).
Proof. repeat split; vm_compute; reflexivity. Qed.

Lemma C5_service_error_reported_witness :
  run None (post_returns 200 (inr error_body)) sample_files
  = ([posted],
     Ok (message_payload "fail" "服務錯誤 (901)：No api_token passed", 200%Z)).
Proof.
  apply (C5_service_error_reported sample_repr sample_key None
           (post_returns 200 (inr error_body)) sample_files sample_upload
           [ ("status", PStr "error");
             ("error", PDict [ ("error_code", PInt 901);
                               ("error_message", PStr "No api_token passed") ]) ]
           [ ("error_code", PInt 901);
             ("error_message", PStr "No api_token passed") ]).
  - apply sample_decoded.
  - reflexivity.
  - reflexivity.
Defined.

Lemma C6_no_match_reported_witness :
  run None (post_returns 200 (inr no_match_body)) sample_files
  = ([posted],
     Ok (message_payload "fail"
           "無法辨識：成功連線至 Audd.io，但無法在資料庫中找到匹配的音樂。", 200%Z)).
Proof.
  apply (C6_no_match_reported sample_repr sample_key None
           (post_returns 200 (inr no_match_body)) sample_files sample_upload
           [("status", PStr "success"); ("result", PNone)]).
  - apply sample_decoded.
  - reflexivity.
  - reflexivity.
Defined.

Lemma C3_fenced_reply_parsed_witness :
  get_song_info_from_gemini sample_repr
    (Some (client_replies (Some fenced_reply))) (PStr "Song") (PStr "Band")
  = ([GeminiGenerate "gemini-2.5-flash" (prompt sample_repr (PStr "Song") (PStr "Band"))],
     Ok (PDict [("lyrics", PStr "L"); ("artist_info", PStr "A")])).
Proof.
  apply (C3_fenced_reply_parsed sample_repr
           (Some (client_replies (Some fenced_reply)))
           (client_replies (Some fenced_reply)) (PStr "Song") (PStr "Band"));
    reflexivity.
Defined.

Lemma C4_links_per_platform_witness :
  links_well_formed sample_record = true
  /\ dict_lookup sample_record "youtube" = None
  /\ extract_links (PDict sample_record)
     = ([], Ok [ ("Spotify", PStr "https://open.spotify.com/track/1");
                 ("Deezer", PStr "https://www.deezer.com/track/1") ])
  /\ dict_has (link_table sample_record) "YouTube Music" = false
  /\ run None (post_returns 200 (matched sample_record)) sample_files
     = ([posted],
        Ok (success_payload (PStr "Song") (PStr "Band") (PStr "Album")
              [ ("Spotify", PStr "https://open.spotify.com/track/1");
                ("Deezer", PStr "https://www.deezer.com/track/1") ]
              (PStr "AI 服務未啟動。") (PStr "AI 服務未啟動。"), 200%Z)).
Proof.
  destruct (proj1 (C4_links_per_platform sample_repr sample_key None
                     (post_returns 200 (matched sample_record)) sample_record)
              eq_refl)
    as (Hrun & _ & _ & _ & Hyt & Hret).
  split; [reflexivity|]. split; [reflexivity|]. split; [exact Hrun|].
  split; [exact (proj1 (Hyt eq_refl))|].
  apply (Hret sample_files sample_upload []
           [("lyrics", PStr "AI 服務未啟動。"); ("artist_info", PStr "AI 服務未啟動。")]).
  - apply sample_match. discriminate.
  - reflexivity.
Defined.

Lemma C9_malformed_platform_entry_witness :
  field_present broken_record "spotify" = true
  /\ (exists e, extract_links (PDict broken_record) = ([], Raise e))
  /\ (exists t message,
        run None (post_returns 200 (matched broken_record)) sample_files
        = (t, Ok (message_payload "error" message, 500%Z))).
Proof.
  split; [reflexivity|].
  apply (C9_malformed_platform_entry sample_repr sample_key None
           (post_returns 200 (matched broken_record)) sample_files sample_upload
           broken_record "Spotify" "spotify" ["external_urls"; "spotify"]
           (KeyError "external_urls")).
  - apply sample_match. discriminate.
  - unfold platforms. cbn [In]. auto.
  - reflexivity.
  - reflexivity.
Defined.

Lemma C10_missing_keys_fallback_witness :
  exists links,
    run (Some (client_replies (Some partial_reply)))
      (post_returns 200 (matched sample_record)) sample_files
    = ([posted; asked sample_record],
       Ok (success_payload (PStr "Song") (PStr "Band") (PStr "Album") links
             (PStr "la la") (PStr "未能獲取歌手簡介。"), 200%Z)).
Proof.
  destruct (C10_missing_keys_fallback sample_repr sample_key
              (Some (client_replies (Some partial_reply)))
              (post_returns 200 (matched sample_record)) sample_files
              sample_upload sample_record [("lyrics", PStr "la la")]
              (client_replies (Some partial_reply)) partial_reply)
    as (links & _ & Hrun & _).
  - apply sample_match. discriminate.
  - reflexivity.
  - reflexivity.
  - reflexivity.
  - vm_compute. reflexivity.
  - exists links. exact Hrun.
Defined.

Lemma C1_enrichment_failure_placeholders_witness :
  Json.loads (clean "Sorry, no lyrics found.") = None
  /\ exists t links,
       run (Some (client_replies (Some "Sorry, no lyrics found.")))
         (post_returns 200 (matched sample_record)) sample_files
       = (t, Ok (success_payload (PStr "Song") (PStr "Band") (PStr "Album") links
                   (PStr "AI 回傳格式錯誤。") (PStr "AI 回傳格式錯誤。"), 200%Z)).
Proof.
  split; [vm_compute; reflexivity|].
  destruct (C1_enrichment_failure_placeholders sample_repr sample_key
              (Some (client_replies (Some "Sorry, no lyrics found.")))
              (post_returns 200 (matched sample_record)) sample_files
              sample_upload sample_record (Unparsable "Sorry, no lyrics found."))
    as (t & links & _ & Hrun & _).
  - apply sample_match. discriminate.
  - reflexivity.
  - exists (client_replies (Some "Sorry, no lyrics found.")).
    split; [reflexivity|]. split; [reflexivity|]. vm_compute. reflexivity.
  - exists t, links. exact Hrun.
Defined.

(** A reply that parses, but not to an object, is not recovered either:
    [gemini_data.get] raises and the request is answered with HTTP 500. *)
Example non_object_reply_escalates :
  run (Some (client_replies (Some "[]")))
    (post_returns 200 (matched sample_record)) sample_files
  = ([posted; asked sample_record],
     Ok (message_payload "error"
           "後端未知錯誤：'list' object has no attribute 'get'", 500%Z)).
Proof. vm_compute. reflexivity. Qed.

(** C1 as stated fails twice on a matched request whose model call raises.
    After an API error the request succeeds but [artist_info] carries the
    text of the error, so two errors give two different values and the
    field is not a fixed string.  After any other exception (here a
    connection error) the request is answered with HTTP 500. *)
Lemma C1_counterexample :
  fingerprint_match sample_key (post_returns 200 (matched sample_record))
    sample_files sample_upload sample_record
  /\ links_well_formed sample_record = true
  /\ snd (run (Some (client_raises (APIError "quota exceeded")))
            (post_returns 200 (matched sample_record)) sample_files)
     = Ok (success_payload (PStr "Song") (PStr "Band") (PStr "Album")
             [ ("Spotify", PStr "https://open.spotify.com/track/1");
               ("Deezer", PStr "https://www.deezer.com/track/1") ]
             (PStr "Gemini API 呼叫失敗。")
             (PStr "Gemini API 呼叫失敗。錯誤：quota exceeded"), 200%Z)
  /\ snd (run (Some (client_raises (APIError "deadline exceeded")))
            (post_returns 200 (matched sample_record)) sample_files)
     = Ok (success_payload (PStr "Song") (PStr "Band") (PStr "Album")
             [ ("Spotify", PStr "https://open.spotify.com/track/1");
               ("Deezer", PStr "https://www.deezer.com/track/1") ]
             (PStr "Gemini API 呼叫失敗。")
             (PStr "Gemini API 呼叫失敗。錯誤：deadline exceeded"), 200%Z)
  /\ run (Some (client_raises (OtherException "Connection reset by peer")))
       (post_returns 200 (matched sample_record)) sample_files
     = ([posted; asked sample_record],
        Ok (message_payload "error"
              "後端未知錯誤：cannot access local variable 'json' where it is not associated with a value",
            500%Z)).
Proof.
  split; [apply sample_match; discriminate|].
  repeat split; vm_compute; reflexivity.
Qed.

(** C5 as stated fails on a body that carries the error marker with an
    [error] entry that is not an object: the answer is HTTP 500 with
    [status=error], not HTTP 200 with [status=fail]. *)
Lemma C5_counterexample :
  decoded_body sample_key (post_returns 200 (inr bad_error_body)) sample_files
    sample_upload bad_error_body
  /\ eq_str (dict_get [("status", PStr "error"); ("error", PStr "Invalid token")]
               "status" PNone) "error" = true
  /\ run None (post_returns 200 (inr bad_error_body)) sample_files
     = ([posted],
        Ok (message_payload "error"
              "後端未知錯誤：'str' object has no attribute 'get'", 500%Z))
  /\ ~ (exists t message,
          run None (post_returns 200 (inr bad_error_body)) sample_files
          = (t, Ok (message_payload "fail" message, 200%Z))).
Proof.
  split; [apply sample_decoded|].
  split; [reflexivity|].
  split; [vm_compute; reflexivity|].
  intros (t & message & H). vm_compute in H. discriminate H.
Qed.

(** C6 as stated fails on a service error, which has no [result] entry
    either: the answer carries the service's error, not the fixed no-match
    message. *)
Lemma C6_counterexample :
  decoded_body sample_key (post_returns 200 (inr error_body)) sample_files
    sample_upload error_body
  /\ dict_lookup
       [ ("status", PStr "error");
         ("error", PDict [ ("error_code", PInt 901);
                           ("error_message", PStr "No api_token passed") ]) ]
       "result" = None
  /\ run None (post_returns 200 (inr error_body)) sample_files
     = ([posted],
        Ok (message_payload "fail" "服務錯誤 (901)：No api_token passed", 200%Z))
  /\ run None (post_returns 200 (inr error_body)) sample_files
     <> ([posted],
         Ok (message_payload "fail"
               "無法辨識：成功連線至 Audd.io，但無法在資料庫中找到匹配的音樂。", 200%Z)).
Proof.
  split; [apply sample_decoded|].
  split; [reflexivity|].
  split; [vm_compute; reflexivity|].
  intros H. vm_compute in H. discriminate H.
Qed.

(** ** Further runs on the sample inputs *)

Lemma X3_no_client_no_model_call_witness :
  ~ In (asked sample_record)
      (fst (run None (post_returns 200 (matched sample_record)) sample_files)).
Proof.
  apply (X3_no_client_no_model_call sample_repr sample_key None
           (post_returns 200 (matched sample_record)) sample_files
           "gemini-2.5-flash" (prompt_for sample_repr sample_record)).
  reflexivity.
Defined.

Lemma X4_body_not_object_witness :
  run None (post_returns 200 (inr (PList []))) sample_files
  = ([posted],
     Ok (message_payload "error"
           "後端未知錯誤：'list' object has no attribute 'get'", 500%Z)).
Proof.
  apply (X4_body_not_object sample_repr sample_key None
           (post_returns 200 (inr (PList []))) sample_files sample_upload
           (PList [])).
  - apply sample_decoded.
  - intros d. discriminate.
Defined.

Lemma X5_transport_failure_witness :
  run None (post_returns 200 (inl "Expecting value")) sample_files
  = ([posted], Ok (message_payload "error" "後端未知錯誤：Expecting value", 500%Z)).
Proof.
  apply (X5_transport_failure sample_repr sample_key None
           (post_returns 200 (inl "Expecting value")) sample_files sample_upload
           "Expecting value").
  - reflexivity.
  - right. exists (MkResponse 200 "OK" (inl "Expecting value")).
    split; [reflexivity|]. split; [left; reflexivity | reflexivity].
Defined.

Lemma X6_match_record_not_object_witness :
  run None
    (post_returns 200
       (inr (PDict [("status", PStr "success"); ("result", PStr "unknown")])))
    sample_files
  = ([posted],
     Ok (message_payload "error"
           "後端未知錯誤：'str' object has no attribute 'get'", 500%Z)).
Proof.
  apply (X6_match_record_not_object sample_repr sample_key None
           (post_returns 200
              (inr (PDict [("status", PStr "success"); ("result", PStr "unknown")])))
           sample_files sample_upload
           [("status", PStr "success"); ("result", PStr "unknown")]).
  - apply sample_decoded.
  - reflexivity.
  - reflexivity.
  - intros d. discriminate.
Defined.

Lemma X7_reply_never_raises_witness :
  exists prints v,
    get_song_info_from_gemini sample_repr (Some (client_replies None))
      (PStr "Song") (PStr "Band")
    = (GeminiGenerate "gemini-2.5-flash" (prompt sample_repr (PStr "Song") (PStr "Band"))
         :: prints, Ok v)
    /\ external_calls prints = []
    /\ (None (A:=string) = None -> v = enrichment "未知錯誤。" "未知錯誤。").
Proof.
  apply (X7_reply_never_raises sample_repr (Some (client_replies None))
           (client_replies None) (PStr "Song") (PStr "Band") None);
    reflexivity.
Defined.

Lemma X8_reply_without_text_witness :
  exists prints links,
    extract_links (PDict sample_record) = ([], Ok links)
    /\ external_calls prints = []
    /\ run (Some (client_replies None))
         (post_returns 200 (matched sample_record)) sample_files
       = (posted :: asked sample_record :: prints,
          Ok (success_payload (PStr "Song") (PStr "Band") (PStr "Album") links
                (PStr "未知錯誤。") (PStr "未知錯誤。"), 200%Z)).
Proof.
  apply (X8_reply_without_text sample_repr sample_key
           (Some (client_replies None))
           (post_returns 200 (matched sample_record)) sample_files sample_upload
           sample_record (client_replies None)).
  - apply sample_match. discriminate.
  - reflexivity.
  - reflexivity.
  - reflexivity.
Defined.

Lemma X9_reply_not_object_witness :
  run (Some (client_replies (Some "[1, 2]")))
    (post_returns 200 (matched sample_record)) sample_files
  = ([posted; asked sample_record],
     Ok (message_payload "error"
           "後端未知錯誤：'list' object has no attribute 'get'", 500%Z)).
Proof.
  apply (X9_reply_not_object sample_repr sample_key
           (Some (client_replies (Some "[1, 2]")))
           (post_returns 200 (matched sample_record)) sample_files sample_upload
           sample_record (client_replies (Some "[1, 2]")) "[1, 2]"
           (PList [PInt 1; PInt 2])).
  - apply sample_match. discriminate.
  - reflexivity.
  - reflexivity.
  - reflexivity.
  - vm_compute. lia.
  - vm_compute. reflexivity.
  - reflexivity.
Defined.

Lemma X10_success_content_witness :
  PStr "Album" = dict_get sample_record "album" PNone
  /\ extract_links (PDict sample_record)
     = ([], Ok [ ("Spotify", PStr "https://open.spotify.com/track/1");
                 ("Deezer", PStr "https://www.deezer.com/track/1") ]).
Proof.
  destruct (X10_success_content sample_repr sample_key
              (Some (client_replies (Some fenced_reply)))
              (post_returns 200 (matched sample_record)) sample_files
              sample_upload sample_record
              [posted; asked sample_record]
              (PStr "Song") (PStr "Band") (PStr "Album")
              [ ("Spotify", PStr "https://open.spotify.com/track/1");
                ("Deezer", PStr "https://www.deezer.com/track/1") ]
              (PStr "L") (PStr "A"))
    as (_ & _ & Halbum & Hlinks & _).
  - apply sample_match. discriminate.
  - vm_compute. reflexivity.
  - split; [exact Halbum | exact Hlinks].
Defined.

Lemma X11_link_table_witness :
  links_well_formed sample_record = true
  /\ extract_links (PDict sample_record) = ([], Ok (link_table sample_record)).
Proof.
  split; [reflexivity|].
  apply (X11_link_table sample_record). reflexivity.
Defined.

Lemma X12_prompt_embeds_witness :
  contains (prompt_for sample_repr [("artist", PStr "Band")])
    ("歌曲名稱: " ++ q "None").
Proof.
  apply (proj2 (proj2 (proj2 (X12_prompt_embeds sample_repr PNone PNone)))
           [("artist", PStr "Band")]).
  reflexivity.
Defined.

Lemma X14_fence_removed_witness :
  clean ("```json" ++ (nl ++ "{" ++ (q "lyrics" ++ ":" ++ q "L") ++ "}" ++ nl) ++ "```")
  = nl ++ "{" ++ (q "lyrics" ++ ":" ++ q "L") ++ "}" ++ nl.
Proof.
  apply (X14_fence_removed "```json" "```" nl nl (q "lyrics" ++ ":" ++ q "L"));
    try reflexivity; discriminate.
Defined.

Lemma X15_blank_reply_witness :
  get_song_info_from_gemini sample_repr
    (Some (client_replies (Some (" " ++ nl)))) (PStr "Song") (PStr "Band")
  = ([GeminiGenerate "gemini-2.5-flash" (prompt sample_repr (PStr "Song") (PStr "Band"));
      Print ("無法解析 Gemini 回傳的 JSON：" ++ " " ++ nl)],
     Ok (enrichment "AI 回傳格式錯誤。" "AI 回傳格式錯誤。")).
Proof.
  apply (X15_blank_reply sample_repr
           (Some (client_replies (Some (" " ++ nl))))
           (client_replies (Some (" " ++ nl))) (PStr "Song") (PStr "Band")
           [" "; nl]).
  - reflexivity.
  - repeat (apply Forall_cons; [vm_compute; auto 40|]). apply Forall_nil.
  - reflexivity.
Defined.

Lemma X16_clean_boundaries_witness :
  clean "json{}" = "{}" /\ is_fence_char "{" = false.
Proof.
  split; [vm_compute; reflexivity|].
  apply (proj1 (X16_clean_boundaries "json{}") "{"%char "}").
  vm_compute. reflexivity.
Defined.

Lemma enrichment_exception_escalates_witness :
  run (Some (client_raises (OtherException "Connection reset by peer")))
    (post_returns 200 (matched sample_record)) sample_files
  = ([posted; asked sample_record],
     Ok (message_payload "error"
           "後端未知錯誤：cannot access local variable 'json' where it is not associated with a value",
         500%Z)).
Proof.
  apply (enrichment_exception_escalates sample_repr sample_key
           (Some (client_raises (OtherException "Connection reset by peer")))
           (post_returns 200 (matched sample_record)) sample_files sample_upload
           sample_record
           (client_raises (OtherException "Connection reset by peer"))
           (OtherException "Connection reset by peer")).
  - apply sample_match. discriminate.
  - reflexivity.
  - reflexivity.
  - reflexivity.
Defined.

